(** * RandomForestWithInstances: the SMAC wrapper around the pyrfr forest

    A shallow embedding of [smac/epm/rf_with_instances.py].  The wrapper
    adapts shapes, handles the model without instance features and clamps
    variances; the regression forest itself and its data container belong
    to the native library [pyrfr] and are taken as an interface
    ([PyrfrLib]) whose instances supply the library's behaviour.

    Python floats are IEEE-754 binary64 values, modelled by the Standard
    Library's [spec_float] at precision 53 and maximal exponent 1024. *)

From Stdlib Require Import ZArith List String Bool Lia.
From Stdlib Require Import SpecFloat DecimalString.
Import ListNotations.
Local Open Scope string_scope.
Local Open Scope list_scope.
Local Open Scope Z_scope.

(** ** Binary64 floats *)

Module Float64.

Definition prec : Z := 53.
Definition emax : Z := 1024.

Definition float := spec_float.

Definition zero : float := S754_zero false.
Definition one : float := Eval vm_compute in SFone prec emax.

(** Conversion of a Python int to a float (round to nearest, ties to even). *)
Definition of_int (n : Z) : float := binary_normalize prec emax n 0 false.

Definition add (x y : float) : float := SFadd prec emax x y.
Definition sub (x y : float) : float := SFsub prec emax x y.
Definition mul (x y : float) : float := SFmul prec emax x y.
Definition div (x y : float) : float := SFdiv prec emax x y.

(** [x < y] and [x >= y] on floats; both are false when an operand is NaN. *)
Definition lt (x y : float) : bool := SFltb x y.
Definition ge (x y : float) : bool := SFleb y x.

(** [np.isnan]. *)
Definition isnan (x : float) : bool :=
  match x with S754_nan => true | _ => false end.

Definition is_finite (x : float) : bool :=
  match x with
  | S754_zero _ | S754_finite _ _ _ => true
  | S754_infinity _ | S754_nan => false
  end.

(** Magnitude of a finite float [m * 2^e], rounded towards zero. *)
Definition trunc_mag (m : positive) (e : Z) : Z :=
  match e with
  | Zneg p => Z.shiftr (Zpos m) (Zpos p)
  | _ => Z.shiftl (Zpos m) e
  end.

(** Magnitude of a finite float [m * 2^e], rounded up. *)
Definition ceil_mag (m : positive) (e : Z) : Z :=
  match e with
  | Zneg p =>
      let q := Z.shiftr (Zpos m) (Zpos p) in
      if Z.eqb (Z.shiftl q (Zpos p)) (Zpos m) then q else q + 1
  | _ => Z.shiftl (Zpos m) e
  end.

(** The mathematical floor of a finite float; [None] for NaN and the
    infinities. *)
Definition floor (x : float) : option Z :=
  match x with
  | S754_zero _ => Some 0
  | S754_finite false m e => Some (trunc_mag m e)
  | S754_finite true m e => Some (- ceil_mag m e)
  | S754_infinity _ | S754_nan => None
  end.

End Float64.

Import Float64.

(** ** Exceptions and results *)

Inductive exn : Type :=
| ValueError (msg : string)
| OverflowError (msg : string)
| AttributeError (msg : string)
| LibraryError (msg : string).

Inductive result (A : Type) : Type :=
| Ok (a : A)
| Raise (e : exn).
Arguments Ok {A} a.
Arguments Raise {A} e.

Definition bind {A B : Type} (r : result A) (k : A -> result B) : result B :=
  match r with
  | Ok a => k a
  | Raise e => Raise e
  end.

Notation "x <- c ;; k" := (bind c (fun x => k))
  (at level 61, c at next level, right associativity).
Notation "' p <- c ;; k" := (bind c (fun x => let 'p := x in k))
  (at level 61, p pattern, c at next level, right associativity).

(** What the native library answers: a value, or a failure of its own.
    The library never raises the wrapper's exceptions; [lift] files its
    failures under [LibraryError]. *)
Inductive lib_result (A : Type) : Type :=
| LibOk (a : A)
| LibFail (msg : string).
Arguments LibOk {A} a.
Arguments LibFail {A} msg.

Definition lift {A : Type} (r : lib_result A) : result A :=
  match r with
  | LibOk a => Ok a
  | LibFail msg => Raise (LibraryError msg)
  end.

(** [int(x)] on a float: truncation towards zero, an error on NaN and on
    the infinities. *)
Definition int_of_float (x : float) : result Z :=
  match x with
  | S754_zero _ => Ok 0
  | S754_finite s m e =>
      Ok (if s then - trunc_mag m e else trunc_mag m e)
  | S754_nan => Raise (ValueError "cannot convert float NaN to integer")
  | S754_infinity _ =>
      Raise (OverflowError "cannot convert float infinity to integer")
  end.

(** ** numpy arrays *)

(** An array of any rank: its shape and its cells in row-major order. *)
Record ndarray (A : Type) : Type := mk_ndarray {
  shape : list nat;
  cells : list A
}.
Arguments mk_ndarray {A} shape cells.
Arguments shape {A} n.
Arguments cells {A} n.

(** [a.size]: the product of the shape. *)
Definition size {A : Type} (a : ndarray A) : nat :=
  fold_right Nat.mul 1%nat (shape a).

Definition wf_ndarray {A : Type} (a : ndarray A) : Prop :=
  List.length (cells a) = size a.

(** [len(a.shape)]. *)
Definition rank {A : Type} (a : ndarray A) : nat := List.length (shape a).

(** [a.flatten()]. *)
Definition flatten {A : Type} (a : ndarray A) : ndarray A :=
  mk_ndarray [size a] (cells a).

(** [a.reshape((-1, 1))]. *)
Definition reshape_col {A : Type} (a : ndarray A) : ndarray A :=
  mk_ndarray [size a; 1%nat] (cells a).

(** The [n] rows of width [d] of a row-major cell list. *)
Fixpoint rows_of {A : Type} (n d : nat) (l : list A) : list (list A) :=
  match n with
  | O => []
  | S n' => firstn d l :: rows_of n' d (skipn d l)
  end.

(** A two-dimensional table, for the arguments the docstrings declare
    as matrices: [instance_features] (I, K) and [configs]. *)
Record matrix : Type := mk_matrix {
  nrows : nat;
  ncols : nat;
  entries : list float
}.

(** [np.zeros((r, c))]. *)
Definition zeros2 (r c : nat) : matrix :=
  mk_matrix r c (repeat zero (r * c)).

(** ['%d' % n]. *)
Definition dec (n : Z) : string := NilZero.string_of_int (Z.to_int n).


(** ** The pyrfr interface *)

(** The attributes of a [pyrfr.regression.binary_rss] object that the
    constructor assigns, and the state [fit] builds. *)
Record binary_rss (T : Type) : Type := mk_binary_rss {
  num_trees : Z;
  rf_seed : Z;
  do_bootstrapping : bool;
  num_data_points_per_tree : Z;
  max_features : Z;
  min_samples_to_split : Z;
  min_samples_in_leaf : Z;
  max_depth : Z;
  epsilon_purity : float;
  max_num_nodes : Z;
  fitted : T
}.
Arguments mk_binary_rss {T}.
Arguments num_trees {T} b.
Arguments rf_seed {T} b.
Arguments do_bootstrapping {T} b.
Arguments num_data_points_per_tree {T} b.
Arguments max_features {T} b.
Arguments min_samples_to_split {T} b.
Arguments min_samples_in_leaf {T} b.
Arguments max_depth {T} b.
Arguments epsilon_purity {T} b.
Arguments max_num_nodes {T} b.
Arguments fitted {T} b.

Definition set_fitted {T : Type} (b : binary_rss T) (t : T) : binary_rss T :=
  mk_binary_rss (num_trees b) (rf_seed b) (do_bootstrapping b)
    (num_data_points_per_tree b) (max_features b) (min_samples_to_split b)
    (min_samples_in_leaf b) (max_depth b) (epsilon_purity b)
    (max_num_nodes b) t.

(** The operations of the native library the wrapper calls. *)
Class PyrfrLib : Type := {
  (** what a forest holds: nothing when fresh, its trees once fitted *)
  trees : Type;
  fresh_trees : trees;
  (** [mostly_continuous_data_with_instances_container] *)
  container : Type;
  new_container : nat -> nat -> container;
  import_configurations : container -> matrix -> lib_result container;
  import_instances : container -> matrix -> lib_result container;
  add_data_points :
    container -> ndarray nat -> ndarray float -> lib_result container;
  (** [rf.fit(data)]: the forest's state afterwards, and the outcome *)
  fit : binary_rss trees -> container -> trees * lib_result unit;
  (** [rf.batch_predictions(X)] *)
  batch_predictions :
    binary_rss trees -> ndarray float ->
    lib_result (ndarray float * ndarray float);
  (** [rf.predict_marginalized_over_instances(x, data)] *)
  lib_predict_marginalized_over_instances :
    binary_rss trees -> list float -> container -> lib_result (float * float)
}.

(** ** The model *)

(** [10 ** -5], the binary64 value [0x1.4f8b588e368f1p-17]. *)
Definition var_threshold_value : float :=
  S754_finite false 0x14f8b588e368f1 (-69).

(** The default [ratio_features], [5. / 6.]. *)
Definition default_ratio_features : float :=
  Eval vm_compute in div (of_int 5) (of_int 6).

(** What the constructor is called with. *)
Record init_args : Type := mk_init_args {
  a_types : list nat;
  a_instance_features : option matrix;
  a_num_trees : Z;
  a_do_bootstrapping : bool;
  a_n_points_per_tree : Z;
  a_ratio_features : float;
  a_min_samples_split : Z;
  a_min_samples_leaf : Z;
  a_max_depth : Z;
  a_eps_purity : float;
  a_max_num_nodes : Z;
  a_seed : Z
}.

(** The keyword defaults of [__init__]. *)
Definition default_args (types : list nat) (feats : option matrix)
  : init_args :=
  mk_init_args types feats 10 true 0 default_ratio_features 3 3 20
    (S754_finite false 0x15798ee2308c3a (-79)) 1000 42.

(** [self.hypers]. *)
Record hypers_list : Type := mk_hypers {
  h_num_trees : Z;
  h_max_num_nodes : Z;
  h_do_bootstrapping : bool;
  h_n_points_per_tree : Z;
  h_ratio_features : float;
  h_min_samples_split : Z;
  h_min_samples_leaf : Z;
  h_max_depth : Z;
  h_eps_purity : float;
  h_seed : Z
}.

(** What [train] returns. *)
Inductive retval : Type := RNone | RSelf.

Section Wrapper.

Context {L : PyrfrLib}.

(** The attributes of a [RandomForestWithInstances] object.  [data] is
    absent until [train] assigns it. *)
Record model : Type := mk_model {
  instance_features : option matrix;
  types : list nat;
  rf : binary_rss trees;
  hypers : hypers_list;
  seed : Z;
  var_threshold : float;
  data : option container
}.

Definition set_data (self : model) (d : container) : model :=
  mk_model (instance_features self) (types self) (rf self) (hypers self)
    (seed self) (var_threshold self) (Some d).

Definition set_rf (self : model) (f : binary_rss trees) : model :=
  mk_model (instance_features self) (types self) f (hypers self)
    (seed self) (var_threshold self) (data self).

(** [max_features] as [__init__] computes it from the [types] argument. *)
Definition init_max_features (types : list nat) (ratio_features : float)
  : result Z :=
  if ge ratio_features one then Ok 0
  else
    n <- int_of_float
           (mul (of_int (Z.of_nat (List.length types))) ratio_features) ;;
    Ok (Z.max 1 n).

(** [__init__]. *)
Definition init (a : init_args) : result model :=
  let '(feats, tys) :=
    match a_instance_features a with
    | Some f => (f, a_types a)
    | None => (zeros2 1 1, a_types a ++ [0%nat])
    end in
  mf <- init_max_features (a_types a) (a_ratio_features a) ;;
  Ok (mk_model (Some feats) tys
        (mk_binary_rss (a_num_trees a) (a_seed a) (a_do_bootstrapping a)
           (a_n_points_per_tree a) mf (a_min_samples_split a)
           (a_min_samples_leaf a) (a_max_depth a) (a_eps_purity a)
           (a_max_num_nodes a) fresh_trees)
        (mk_hypers (a_num_trees a) (a_max_num_nodes a)
           (a_do_bootstrapping a) (a_n_points_per_tree a)
           (a_ratio_features a) (a_min_samples_split a)
           (a_min_samples_leaf a) (a_max_depth a) (a_eps_purity a)
           (a_seed a))
        (a_seed a) var_threshold_value None).

(** The container [train] builds, from a fresh one. *)
Definition build_data (feats : matrix) (configs : matrix)
  (f_map : ndarray nat) (y : ndarray float) : result container :=
  let data := new_container (ncols configs) (ncols feats) in
  data <- lift (import_configurations data configs) ;;
  data <- lift (import_instances data feats) ;;
  lift (add_data_points data f_map y).

(** [train]: the value returned and the object's state afterwards. *)
Definition train (self : model) (configs : matrix) (f_map : ndarray nat)
  (y : ndarray float) : result retval * model :=
  let y := flatten y in
  match instance_features self with
  | None =>
      (Raise (AttributeError "'NoneType' object has no attribute 'shape'"),
       self)
  | Some feats =>
      match build_data feats configs f_map y with
      | Raise e => (Raise e, self)
      | Ok data =>
          let self := set_data self data in
          let '(t, outcome) := fit (rf self) data in
          let self := set_rf self (set_fitted (rf self) t) in
          match lift outcome with
          | Raise e => (Raise e, self)
          | Ok _ => (Ok RSelf, self)
          end
      end
  end.

(** [X.shape[1]] of an array of rank 2. *)
Definition shape1 {A : Type} (X : ndarray A) : nat := nth 1 (shape X) 0%nat.

(** [X.shape[0]] of an array of rank at least 1. *)
Definition shape0 {A : Type} (X : ndarray A) : nat := nth 0 (shape X) 0%nat.

Definition rank_message (r : nat) : string :=
  ("Expected 2d array, got " ++ dec (Z.of_nat r) ++ "d array!")%string.

Definition columns_message (expected actual : Z) : string :=
  ("Rows in X should have " ++ dec expected ++ " entries but have "
     ++ dec actual ++ "!")%string.

(** [predict]. *)
Definition predict (self : model) (X : ndarray float)
  : result (ndarray float * ndarray float) :=
  if negb (rank X =? 2)%nat then
    Raise (ValueError (rank_message (rank X)))
  else if negb (shape1 X =? List.length (types self))%nat then
    Raise (ValueError
             (columns_message (Z.of_nat (List.length (types self)))
                (Z.of_nat (shape1 X))))
  else
    '(means, vars) <- lift (batch_predictions (rf self) X) ;;
    Ok (reshape_col means, reshape_col vars).

(** [var[var < self.var_threshold] = self.var_threshold], on one cell. *)
Definition floor_low (thr v : float) : float := if lt v thr then thr else v.

(** [var[np.isnan(var)] = self.var_threshold], on one cell. *)
Definition floor_nan (thr v : float) : float := if isnan v then thr else v.

(** Both assignments, in the order of the source, on a whole array. *)
Definition variance_floor (thr : float) (var : ndarray float)
  : ndarray float :=
  mk_ndarray (shape var)
    (map (floor_nan thr) (map (floor_low thr) (cells var))).

(** The guard of the branch for a model without instances. *)
Definition no_instances (self : model) : bool :=
  match instance_features self with
  | None => true
  | Some t => (nrows t =? 0)%nat
  end.

(** [self.data], an attribute that exists once [train] has assigned it. *)
Definition get_data (self : model) : result container :=
  match data self with
  | Some d => Ok d
  | None =>
      Raise (AttributeError
        "'RandomForestWithInstances' object has no attribute 'data'")
  end.

(** The loop over the rows of [X]: the cells of [mean] and [var] when it
    ends. *)
Fixpoint marginalize_rows (self : model) (k : nat) (rows : list (list float))
  : result (list float * list float) :=
  match rows with
  | [] => Ok ([], [])
  | x :: rest =>
      let x_ := x ++ repeat zero k in
      d <- get_data self ;;
      '(mean_x, var_x) <-
        lift (lib_predict_marginalized_over_instances (rf self) x_ d) ;;
      let var_x :=
        if lt var_x (var_threshold self) then var_threshold self else var_x in
      '(mean, var) <- marginalize_rows self k rest ;;
      Ok (mean_x :: mean, var_x :: var)
  end.

(** The width of the configuration part of a row: [self.types.shape[0] -
    n_instance_features]. *)
Definition config_width (self : model) (feats : matrix) : Z :=
  Z.of_nat (List.length (types self)) - Z.of_nat (ncols feats).

(** The branch of [predict_marginalized_over_instances] for a model whose
    instance table is absent or empty. *)
Definition predict_no_instances (self : model) (X : ndarray float)
  : result (ndarray float * ndarray float) :=
  '(mean, var) <- predict self X ;;
  Ok (mean, variance_floor (var_threshold self) var).

(** The branch for a model with instances. *)
Definition predict_per_row (self : model) (feats : matrix) (X : ndarray float)
  : result (ndarray float * ndarray float) :=
  let n_instance_features := ncols feats in
  if negb (rank X =? 2)%nat then
    Raise (ValueError (rank_message (rank X)))
  else if negb (Z.of_nat (shape1 X) =? config_width self feats) then
    Raise (ValueError
             (columns_message (config_width self feats) (Z.of_nat (shape1 X))))
  else
    '(mean, var) <-
      marginalize_rows self n_instance_features
        (rows_of (shape0 X) (shape1 X) (cells X)) ;;
    let var :=
      variance_floor (var_threshold self) (mk_ndarray [shape0 X] var) in
    Ok (reshape_col (mk_ndarray [shape0 X] mean), reshape_col var).

(** [predict_marginalized_over_instances]. *)
Definition predict_marginalized_over_instances (self : model)
  (X : ndarray float) : result (ndarray float * ndarray float) :=
  if no_instances self then predict_no_instances self X
  else
    match instance_features self with
    | Some feats => predict_per_row self feats X
    | None =>
        Raise (AttributeError "'NoneType' object has no attribute 'shape'")
    end.

End Wrapper.

(** ** A forest of single-leaf trees

    An instance of the interface in which every tree is one leaf holding
    the mean and the variance of the training targets, as trees are when
    no split is allowed.  The container records what was imported and
    checks the widths it was created with. *)

Module Stump.

Record store : Type := mk_store {
  s_nconf : nat;
  s_ninst : nat;
  s_configs : option matrix;
  s_instances : option matrix;
  s_points : option (ndarray nat * ndarray float)
}.

Definition fsum (l : list float) : float := fold_left add l zero.

Definition fmean (l : list float) : float :=
  div (fsum l) (of_int (Z.of_nat (List.length l))).

Definition fvariance (l : list float) : float :=
  let mu := fmean l in
  fmean (map (fun y => let d := sub y mu in mul d d) l).

Definition s_import_configurations (d : store) (c : matrix)
  : lib_result store :=
  if (ncols c =? s_nconf d)%nat then
    LibOk (mk_store (s_nconf d) (s_ninst d) (Some c) (s_instances d)
             (s_points d))
  else LibFail "configuration width mismatch".

Definition s_import_instances (d : store) (f : matrix) : lib_result store :=
  if (ncols f =? s_ninst d)%nat then
    LibOk (mk_store (s_nconf d) (s_ninst d) (s_configs d) (Some f)
             (s_points d))
  else LibFail "instance feature width mismatch".

Definition s_add_data_points (d : store) (f_map : ndarray nat)
  (y : ndarray float) : lib_result store :=
  if (rank y =? 1)%nat then
    LibOk (mk_store (s_nconf d) (s_ninst d) (s_configs d) (s_instances d)
             (Some (f_map, y)))
  else LibFail "targets must be one-dimensional".

Definition leaf : Type := (float * float)%type.

Definition s_fit (f : binary_rss (option leaf)) (d : store)
  : option leaf * lib_result unit :=
  match s_points d with
  | Some (_, y) =>
      match cells y with
      | [] => (fitted f, LibFail "no data points")
      | ys => (Some (fmean ys, fvariance ys), LibOk tt)
      end
  | None => (fitted f, LibFail "no data points")
  end.

Definition s_batch_predictions (f : binary_rss (option leaf))
  (X : ndarray float) : lib_result (ndarray float * ndarray float) :=
  match fitted f with
  | None => LibFail "forest is not fitted"
  | Some (mu, v) =>
      let n := nth 0 (shape X) 0%nat in
      LibOk (mk_ndarray [n] (repeat mu n), mk_ndarray [n] (repeat v n))
  end.

Definition s_predict_marginalized (f : binary_rss (option leaf))
  (x : list float) (d : store) : lib_result (float * float) :=
  match fitted f with
  | None => LibFail "forest is not fitted"
  | Some l => LibOk l
  end.

Definition lib : PyrfrLib :=
  {| trees := option leaf;
     fresh_trees := None;
     container := store;
     new_container := fun nc ni => mk_store nc ni None None None;
     import_configurations := s_import_configurations;
     import_instances := s_import_instances;
     add_data_points := s_add_data_points;
     fit := s_fit;
     batch_predictions := s_batch_predictions;
     lib_predict_marginalized_over_instances := s_predict_marginalized |}.

End Stump.

(** ** A double of the library

    An instance that answers differently from its two prediction entry
    points (mean 1 from [batch_predictions], mean 2 from the marginalized
    prediction), to tell which one a path of the wrapper calls. *)

Module Probe.

Definition lib : PyrfrLib :=
  {| trees := unit;
     fresh_trees := tt;
     container := unit;
     new_container := fun _ _ => tt;
     import_configurations := fun d _ => LibOk d;
     import_instances := fun d _ => LibOk d;
     add_data_points := fun d _ _ => LibOk d;
     fit := fun _ _ => (tt, LibOk tt);
     batch_predictions := fun _ X =>
       let n := nth 0 (shape X) 0%nat in
       LibOk (mk_ndarray [n] (repeat one n), mk_ndarray [n] (repeat one n));
     lib_predict_marginalized_over_instances := fun _ _ _ =>
       LibOk (of_int 2, one) |}.

End Probe.

(** ** The behaviour the specification words describe *)

(** [X] with the dummy column (value 0) appended to every row. *)
Definition pad_dummy (X : ndarray float) : ndarray float :=
  let n := nth 0 (shape X) 0%nat in
  let d := nth 1 (shape X) 0%nat in
  mk_ndarray [n; S d]
    (List.concat (map (fun r => r ++ [zero]) (rows_of n d (cells X)))).

(** [max_features] in the words of the specification: 0 when the ratio
    is at least 1, else the larger of 1 and the floor of [D * ratio]. *)
Definition spec_max_features (D : Z) (ratio_features : float) : option Z :=
  if ge ratio_features one then Some 0
  else option_map (Z.max 1) (floor (mul (of_int D) ratio_features)).

(** The constructor's integer conversion is defined: the ratio is at
    least 1, or the product is neither NaN nor infinite. *)
Definition max_features_defined (types : list nat) (ratio_features : float)
  : Prop :=
  ge ratio_features one = true \/
  is_finite (mul (of_int (Z.of_nat (List.length types))) ratio_features) = true.

(** ** Sample runs *)

Module Sample.

(** Construct, then train once. *)
Definition init_then_train {L : PyrfrLib} (a : init_args) (configs : matrix)
  (f_map : ndarray nat) (y : ndarray float) : result (@model L) :=
  self <- init a ;;
  let '(r, self) := train self configs f_map y in
  _ <- r ;;
  Ok self.

(** Two continuous dimensions, no instances, three configurations. *)
Definition two_dims : init_args := default_args [0%nat; 0%nat] None.

Definition configs : matrix :=
  mk_matrix 3 2 (map of_int [0; 0; 1; 1; 2; 2]).

Definition f_map : ndarray nat :=
  mk_ndarray [3%nat; 2%nat] [0; 0; 1; 0; 2; 0]%nat.

(** Identical targets, given as a column. *)
Definition y_same : ndarray float :=
  mk_ndarray [3%nat; 1%nat] (map of_int [2; 2; 2]).

(** One row [[0, 0, 0]]: a configuration and the dummy column. *)
Definition X_padded : ndarray float :=
  mk_ndarray [1%nat; 3%nat] [zero; zero; zero].

(** One row [[0, 0]]: a configuration alone. *)
Definition X_config : ndarray float :=
  mk_ndarray [1%nat; 2%nat] [zero; zero].

(** A flat vector. *)
Definition X_flat : ndarray float := mk_ndarray [2%nat] [zero; zero].

(** No row, two columns. *)
Definition X_no_rows : ndarray float := mk_ndarray [0%nat; 2%nat] [].

(** Two instances with features [0] and [10]. *)
Definition two_instances : matrix := mk_matrix 2 1 (map of_int [0; 10]).

(** A supplied, empty instance table. *)
Definition no_rows_table : matrix := mk_matrix 0 1 [].

(** [0.7]. *)
Definition ratio_07 : float := S754_finite false 0x16666666666666 (-53).

(** Two configuration dimensions and one instance feature, ratio 0.7. *)
Definition with_instances_07 : init_args :=
  mk_init_args [0%nat; 0%nat; 0%nat] (Some two_instances) 10 true 0 ratio_07
    3 3 20 (a_eps_purity (default_args [] None)) 1000 42.

(** Two configuration dimensions and one instance feature, defaults. *)
Definition with_instances : init_args :=
  default_args [0%nat; 0%nat; 0%nat] (Some two_instances).

(** Two dimensions and a supplied table without rows. *)
Definition with_empty_table : init_args :=
  default_args [0%nat; 0%nat] (Some no_rows_table).

Definition blank {L : PyrfrLib} : model :=
  mk_model None []
    (mk_binary_rss 0 0 false 0 0 0 0 0 zero 0 fresh_trees)
    (mk_hypers 0 0 false 0 zero 0 0 0 zero 0) 0 zero None.

Definition get {L : PyrfrLib} (r : result model) : model :=
  match r with
  | Ok self => self
  | Raise _ => blank
  end.

(** The models the runs below use, with the single-leaf forest. *)
Definition stump_untrained : @model Stump.lib :=
  Eval vm_compute in get (init two_dims).

Definition stump_same : @model Stump.lib :=
  Eval vm_compute in get (init_then_train two_dims configs f_map y_same).

Definition stump_instances : @model Stump.lib :=
  Eval vm_compute in
    get (init_then_train with_instances configs f_map y_same).

Definition stump_empty_table : @model Stump.lib :=
  Eval vm_compute in get (init with_empty_table).

(** The model without instance features, with the library double. *)
Definition probe_trained : @model Probe.lib :=
  Eval vm_compute in get (init_then_train two_dims configs f_map y_same).

(** No target at all. *)
Definition y_empty : ndarray float := mk_ndarray [0%nat] [].

(** The defaults with a ratio that is not a number. *)
Definition with_nan_ratio : init_args :=
  mk_init_args [0%nat; 0%nat] None 10 true 0 S754_nan 3 3 20
    (a_eps_purity (default_args [] None)) 1000 42.

(** An instance table wider than [types]. *)
Definition wide_table : matrix := mk_matrix 1 3 (map of_int [1; 2; 3]).

Definition with_wide_table : init_args :=
  default_args [0%nat; 0%nat] (Some wide_table).

Definition stump_wide : @model Stump.lib :=
  Eval vm_compute in get (init with_wide_table).

(** The model with the empty table, trained. *)
Definition stump_empty_trained : @model Stump.lib :=
  Eval vm_compute in
    get (init_then_train with_empty_table configs f_map y_same).

End Sample.

(** * Properties *)

(** ** Checks of the constants *)

Example dec_samples : (dec 0, dec 12, dec (-2)) = ("0", "12", "-2").
Proof. reflexivity. Qed.

Example var_threshold_value_is_1e_minus_5 :
  div one (of_int 100000) = var_threshold_value.
Proof. vm_compute. reflexivity. Qed.

Example default_ratio_features_bits :
  default_ratio_features = S754_finite false 0x1aaaaaaaaaaaab (-53).
Proof. reflexivity. Qed.

Example default_eps_purity :
  div one (of_int 100000000) = a_eps_purity (default_args [] None).
Proof. vm_compute. reflexivity. Qed.

(** ** Order on floats *)

Lemma SFcompare_antisym (x y : float) (c : comparison) :
  SFcompare x y = Some c -> SFcompare y x = Some (CompOpp c).
Proof.
  destruct x as [sx | sx | | sx mx ex], y as [sy | sy | | sy my ey];
    simpl; try discriminate;
    try (destruct sx; intros H; inversion H; reflexivity);
    try (destruct sy; intros H; inversion H; reflexivity);
    try (destruct sx, sy; intros H; inversion H; reflexivity).
  intros H. injection H as <-. f_equal.
  destruct sx, sy; try reflexivity;
    rewrite (Z.compare_antisym ex ey);
    destruct (ex ?= ey) eqn:E; simpl; try reflexivity;
    rewrite (Pos.compare_cont_antisym mx my Eq); reflexivity.
Qed.

Lemma SFcompare_defined (x y : float) :
  isnan x = false -> isnan y = false -> exists c, SFcompare x y = Some c.
Proof.
  destruct x, y; simpl; intros; try discriminate; eauto.
Qed.

Lemma not_lt_ge (x y : float) :
  isnan x = false -> isnan y = false -> lt x y = false -> ge x y = true.
Proof.
  intros Hx Hy. unfold lt, ge, SFltb, SFleb.
  destruct (SFcompare_defined x y Hx Hy) as [c Hc].
  rewrite Hc, (SFcompare_antisym _ _ _ Hc).
  destruct c; simpl; congruence.
Qed.

Lemma lt_irrefl (x : float) : lt x x = false.
Proof.
  unfold lt, SFltb. destruct (SFcompare x x) as [c | ] eqn:Hc; trivial.
  pose proof (SFcompare_antisym _ _ _ Hc) as Hc'.
  rewrite Hc in Hc'. destruct c; simpl in *; congruence.
Qed.

Lemma ge_refl (x : float) : isnan x = false -> ge x x = true.
Proof.
  intros Hx. apply not_lt_ge; trivial. apply lt_irrefl.
Qed.

(** After both assignments a cell is a number, and not below the
    threshold. *)
Lemma floor_cell (thr v : float) :
  isnan thr = false ->
  isnan (floor_nan thr (floor_low thr v)) = false /\
  ge (floor_nan thr (floor_low thr v)) thr = true.
Proof.
  intros Hthr. unfold floor_nan, floor_low.
  destruct (lt v thr) eqn:Hlt.
  - rewrite Hthr. split; [assumption | now apply ge_refl].
  - destruct (isnan v) eqn:Hnan.
    + split; [assumption | now apply ge_refl].
    + split; [assumption | now apply not_lt_ge].
Qed.

Lemma floor_low_idem (thr v : float) :
  floor_low thr (floor_low thr v) = floor_low thr v.
Proof.
  unfold floor_low.
  destruct (lt v thr) eqn:Hlt; [rewrite lt_irrefl | rewrite Hlt]; reflexivity.
Qed.

(** ** Arrays *)

Lemma rows_of_length {A : Type} (n d : nat) (l : list A) :
  List.length (rows_of n d l) = n.
Proof.
  revert l. induction n as [ | n IH]; intros l; simpl; [ | rewrite IH];
    reflexivity.
Qed.

Lemma size_vector {A : Type} (n : nat) (l : list A) :
  size (mk_ndarray [n] l) = n.
Proof. unfold size. simpl. apply Nat.mul_1_r. Qed.

Lemma shape_reshape_col_vector {A : Type} (n : nat) (l : list A) :
  shape (reshape_col (mk_ndarray [n] l)) = [n; 1%nat].
Proof. unfold reshape_col. now rewrite size_vector. Qed.

Lemma size_flatten {A : Type} (a : ndarray A) : size (flatten a) = size a.
Proof. unfold flatten. apply size_vector. Qed.

Lemma flatten_idem {A : Type} (a : ndarray A) :
  flatten (flatten a) = flatten a.
Proof. unfold flatten at 1. rewrite size_flatten. reflexivity. Qed.

(** Flattening and reshaping to a column keep an array well formed. *)
Lemma wf_flatten {A : Type} (a : ndarray A) :
  wf_ndarray a -> wf_ndarray (flatten a).
Proof. unfold wf_ndarray. rewrite size_flatten. trivial. Qed.

Lemma wf_reshape_col {A : Type} (a : ndarray A) :
  wf_ndarray a -> wf_ndarray (reshape_col a).
Proof.
  unfold wf_ndarray, reshape_col, size. simpl. intros H.
  rewrite Nat.mul_1_r. exact H.
Qed.

(** ** predict *)

Section PredictProperties.

Context {L : PyrfrLib}.

Lemma messages_differ (r : nat) (e a : Z) :
  rank_message r <> columns_message e a.
Proof. unfold rank_message, columns_message. simpl. discriminate. Qed.

(** On an array of the right shape [predict] is the forest's batch
    prediction, each answer reshaped to a column. *)
Lemma predict_valid (self : model) (X : ndarray float) :
  rank X = 2%nat -> shape1 X = List.length (types self) ->
  predict self X =
    ('(means, vars) <- lift (batch_predictions (rf self) X) ;;
     Ok (reshape_col means, reshape_col vars)).
Proof.
  intros Hr Hc. unfold predict.
  rewrite (proj2 (Nat.eqb_eq _ _) Hr), (proj2 (Nat.eqb_eq _ _) Hc).
  reflexivity.
Qed.

Lemma predict_wrong_rank (self : model) (X : ndarray float) :
  rank X <> 2%nat ->
  predict self X = Raise (ValueError (rank_message (rank X))).
Proof.
  intros Hr. unfold predict. rewrite (proj2 (Nat.eqb_neq _ _) Hr).
  reflexivity.
Qed.

Lemma predict_wrong_columns (self : model) (X : ndarray float) :
  rank X = 2%nat -> shape1 X <> List.length (types self) ->
  predict self X =
    Raise (ValueError
             (columns_message (Z.of_nat (List.length (types self)))
                (Z.of_nat (shape1 X)))).
Proof.
  intros Hr Hc. unfold predict.
  rewrite (proj2 (Nat.eqb_eq _ _) Hr), (proj2 (Nat.eqb_neq _ _) Hc).
  reflexivity.
Qed.

(** C4. [predict] raises the shape error (a [ValueError]) exactly when
    [X] is not of rank 2 or its column count differs from the length of
    the stored [types].  The message for a wrong rank names the expected
    rank, "Expected 2d array, got <rank>d array!"; the message for a
    wrong column count cites the expected and the actual count, "Rows in
    X should have <expected> entries but have <actual>!"; the two
    messages are never equal. *)
Theorem predict_shape_errors (self : model) (X : ndarray float) :
  (rank X <> 2%nat ->
   predict self X =
     Raise (ValueError
       ("Expected 2d array, got " ++ dec (Z.of_nat (rank X)) ++ "d array!")))
  /\
  (rank X = 2%nat -> shape1 X <> List.length (types self) ->
   predict self X =
     Raise (ValueError
       ("Rows in X should have "
          ++ dec (Z.of_nat (List.length (types self)))
          ++ " entries but have " ++ dec (Z.of_nat (shape1 X)) ++ "!")))
  /\
  ((exists msg, predict self X = Raise (ValueError msg)) <->
   (rank X <> 2%nat \/ shape1 X <> List.length (types self)))
  /\
  (forall r e a, rank_message r <> columns_message e a).
Proof.
  split; [exact (predict_wrong_rank self X) | ].
  split; [exact (predict_wrong_columns self X) | ].
  split; [ | exact messages_differ].
  split.
  - intros [msg H].
    destruct (Nat.eq_dec (rank X) 2) as [Hr | Hr]; [ | now left].
    destruct (Nat.eq_dec (shape1 X) (List.length (types self))) as [Hc | Hc];
      [ | now right].
    rewrite (predict_valid self X Hr Hc) in H.
    destruct (batch_predictions (rf self) X) as [[means vars] | m];
      simpl in H; discriminate.
  - intros [Hr | Hc].
    + eexists. now apply predict_wrong_rank.
    + destruct (Nat.eq_dec (rank X) 2) as [Hr | Hr].
      * eexists. now apply predict_wrong_columns.
      * eexists. now apply predict_wrong_rank.
Qed.

(** C1, as the code has it.  On a valid [X], [predict] returns the
    variances of the forest's batch prediction, reshaped to a column and
    otherwise untouched: no floor and no replacement of NaN is applied, so
    a returned variance is at least the threshold exactly when the
    forest's own is. *)
Theorem predict_returns_forest_variances
  (self : model) (X means vars : ndarray float) :
  rank X = 2%nat -> shape1 X = List.length (types self) ->
  batch_predictions (rf self) X = LibOk (means, vars) ->
  predict self X = Ok (reshape_col means, reshape_col vars) /\
  cells (reshape_col vars) = cells vars /\
  (Forall (fun v => ge v (var_threshold self) = true)
     (cells (reshape_col vars)) <->
   Forall (fun v => ge v (var_threshold self) = true) (cells vars)).
Proof.
  intros Hr Hc Hb. rewrite (predict_valid self X Hr Hc), Hb. simpl.
  repeat split; trivial.
Qed.

(** C8.  When the forest answers a valid [X] of [n] rows with [n] means
    and [n] variances, [predict] returns both as arrays of shape [n, 1].
    On any model with an instance table, trained or not, [train] passes
    the flattened [y], of shape [size y], to the container, stores the
    container and the fitted forest in the object and returns the object
    itself; whenever [train] returns, what it returns is the object, and
    training on [y] and on its flattening are the same. *)
Theorem predict_columns_and_train_returns_self
  (self : model) (X means vars : ndarray float)
  (trainee : model) (feats configs : matrix) (f_map : ndarray nat)
  (y : ndarray float) (d1 d2 d3 : container) (t : trees) :
  rank X = 2%nat -> shape1 X = List.length (types self) ->
  batch_predictions (rf self) X = LibOk (means, vars) ->
  size means = shape0 X -> size vars = shape0 X ->
  instance_features trainee = Some feats ->
  import_configurations (new_container (ncols configs) (ncols feats)) configs
    = LibOk d1 ->
  import_instances d1 feats = LibOk d2 ->
  add_data_points d2 f_map (flatten y) = LibOk d3 ->
  fit (rf trainee) d3 = (t, LibOk tt) ->
  (exists m v,
     predict self X = Ok (m, v) /\
     shape m = [shape0 X; 1%nat] /\ shape v = [shape0 X; 1%nat] /\
     cells m = cells means /\ cells v = cells vars)
  /\
  train trainee configs f_map y =
    (Ok RSelf, set_rf (set_data trainee d3) (set_fitted (rf trainee) t))
  /\ shape (flatten y) = [size y]
  /\ train trainee configs f_map (flatten y) = train trainee configs f_map y
  /\ (forall (anyone : model) configs' f_map' y' r,
        fst (train anyone configs' f_map' y') = Ok r -> r = RSelf).
Proof.
  intros Hr Hc Hb Hm Hv Hf H1 H2 H3 H4.
  split; [ | split; [ | split; [ | split]]].
  - exists (reshape_col means), (reshape_col vars).
    rewrite (predict_valid self X Hr Hc), Hb. simpl.
    unfold reshape_col. simpl. rewrite Hm, Hv. repeat split.
  - unfold train, build_data. rewrite Hf, H1. simpl. rewrite H2. simpl.
    rewrite H3. simpl. rewrite H4. reflexivity.
  - reflexivity.
  - unfold train. rewrite flatten_idem. reflexivity.
  - intros anyone configs' f_map' y' r. unfold train.
    destruct (instance_features anyone) as [feats' | ]; simpl;
      [ | discriminate].
    destruct (build_data feats' configs' f_map' (flatten y')) as [d | e];
      simpl; [ | discriminate].
    destruct (fit (rf anyone) d) as [t' [[] | msg]]; simpl;
      [congruence | discriminate].
Qed.

End PredictProperties.

(** ** predict_marginalized_over_instances *)

Section MarginalizedLemmas.

Context {L : PyrfrLib}.

Lemma no_instances_false (self : model) (feats : matrix) :
  instance_features self = Some feats -> nrows feats <> 0%nat ->
  no_instances self = false.
Proof.
  intros Hf Hn. unfold no_instances. rewrite Hf. now apply Nat.eqb_neq.
Qed.

Lemma with_instances_per_row (self : model) (feats : matrix)
  (X : ndarray float) :
  instance_features self = Some feats -> nrows feats <> 0%nat ->
  predict_marginalized_over_instances self X = predict_per_row self feats X.
Proof.
  intros Hf Hn. unfold predict_marginalized_over_instances.
  rewrite (no_instances_false self feats Hf Hn), Hf. reflexivity.
Qed.

(** The loop succeeds when the object has its data and the forest
    answers every padded row; each variance is floored as it is stored. *)
Lemma marginalize_rows_ok (self : model) (k : nat) (d : container)
  (rows : list (list float)) (outs : list (float * float)) :
  data self = Some d ->
  Forall2
    (fun x o =>
       lib_predict_marginalized_over_instances (rf self)
         (x ++ repeat zero k) d = LibOk o) rows outs ->
  marginalize_rows self k rows =
    Ok (map fst outs,
        map (fun o => floor_low (var_threshold self) (snd o)) outs).
Proof.
  intros Hd H. induction H as [ | x o rows outs Hx _ IH]; simpl.
  - reflexivity.
  - unfold get_data. rewrite Hd. simpl. rewrite Hx. simpl.
    destruct o as [mean_x var_x]. rewrite IH. reflexivity.
Qed.

(** The loop raises nothing but a missing attribute or a failure of the
    library. *)
Lemma marginalize_rows_no_value_error (self : model) (k : nat)
  (rows : list (list float)) (msg : string) :
  marginalize_rows self k rows <> Raise (ValueError msg).
Proof.
  induction rows as [ | x rest IH]; simpl; [discriminate | ].
  unfold get_data. destruct (data self) as [d | ]; simpl; [ | discriminate].
  destruct (lib_predict_marginalized_over_instances _ _ d) as [[m v] | e];
    simpl; [ | discriminate].
  destruct (marginalize_rows self k rest) as [[ms vs] | e]; simpl;
    [discriminate | ].
  intros H. apply IH. congruence.
Qed.

(** Without [data] the loop stops at the first row. *)
Lemma marginalize_rows_without_data (self : model) (k : nat)
  (x : list float) (rest : list (list float)) :
  data self = None ->
  marginalize_rows self k (x :: rest) =
    Raise (AttributeError
      "'RandomForestWithInstances' object has no attribute 'data'").
Proof. intros Hd. simpl. unfold get_data. rewrite Hd. reflexivity. Qed.

Lemma per_row_wrong_rank (self : model) (feats : matrix) (X : ndarray float) :
  rank X <> 2%nat ->
  predict_per_row self feats X = Raise (ValueError (rank_message (rank X))).
Proof.
  intros Hr. unfold predict_per_row. rewrite (proj2 (Nat.eqb_neq _ _) Hr).
  reflexivity.
Qed.

Lemma per_row_wrong_columns (self : model) (feats : matrix)
  (X : ndarray float) :
  rank X = 2%nat -> Z.of_nat (shape1 X) <> config_width self feats ->
  predict_per_row self feats X =
    Raise (ValueError
             (columns_message (config_width self feats) (Z.of_nat (shape1 X)))).
Proof.
  intros Hr Hc. unfold predict_per_row.
  rewrite (proj2 (Nat.eqb_eq _ _) Hr), (proj2 (Z.eqb_neq _ _) Hc).
  reflexivity.
Qed.

Lemma per_row_valid (self : model) (feats : matrix) (X : ndarray float) :
  rank X = 2%nat -> Z.of_nat (shape1 X) = config_width self feats ->
  predict_per_row self feats X =
    ('(mean, var) <-
       marginalize_rows self (ncols feats)
         (rows_of (shape0 X) (shape1 X) (cells X)) ;;
     Ok (reshape_col (mk_ndarray [shape0 X] mean),
         reshape_col
           (variance_floor (var_threshold self) (mk_ndarray [shape0 X] var)))).
Proof.
  intros Hr Hc. unfold predict_per_row.
  rewrite (proj2 (Nat.eqb_eq _ _) Hr), (proj2 (Z.eqb_eq _ _) Hc).
  reflexivity.
Qed.

End MarginalizedLemmas.

(** C5.  For a trained model with a non-empty instance table and a valid
    [X], whenever the forest answers every padded row, the call returns;
    the loop stores each variance already floored, the two assignments
    after the loop floor the whole array and replace NaN, and so every
    returned variance is a number not below [var_threshold] (1e-5).  The
    variances come back as a column of [X.shape[0]] cells. *)
Theorem marginalized_variance_floor {L : PyrfrLib}
  (self : model) (feats : matrix) (d : container) (X : ndarray float)
  (outs : list (float * float)) :
  instance_features self = Some feats -> nrows feats <> 0%nat ->
  var_threshold self = var_threshold_value ->
  data self = Some d ->
  rank X = 2%nat -> Z.of_nat (shape1 X) = config_width self feats ->
  Forall2
    (fun x o =>
       lib_predict_marginalized_over_instances (rf self)
         (x ++ repeat zero (ncols feats)) d = LibOk o)
    (rows_of (shape0 X) (shape1 X) (cells X)) outs ->
  exists mean var,
    predict_marginalized_over_instances self X = Ok (mean, var) /\
    marginalize_rows self (ncols feats)
      (rows_of (shape0 X) (shape1 X) (cells X)) =
      Ok (map fst outs,
          map (fun o => floor_low var_threshold_value (snd o)) outs) /\
    shape var = [shape0 X; 1%nat] /\
    List.length (cells var) = shape0 X /\
    cells var =
      map (fun o =>
             floor_nan var_threshold_value
               (floor_low var_threshold_value
                  (floor_low var_threshold_value (snd o)))) outs /\
    Forall (fun v => isnan v = false /\ ge v var_threshold_value = true)
      (cells var).
Proof.
  intros Hf Hn Hthr Hd Hr Hc Houts.
  pose proof (marginalize_rows_ok self _ d _ _ Hd Houts) as Hloop.
  rewrite Hthr in Hloop.
  eexists. eexists. split.
  { rewrite (with_instances_per_row self feats X Hf Hn).
    rewrite (per_row_valid self feats X Hr Hc), Hloop, Hthr. simpl.
    reflexivity. }
  split; [exact Hloop | ].
  split; [apply shape_reshape_col_vector | ].
  assert (Hlen : List.length outs = shape0 X).
  { rewrite <- (Forall2_length Houts). apply rows_of_length. }
  split; [simpl; now rewrite !length_map | ].
  split; [simpl; now rewrite !map_map | ].
  simpl. rewrite !Forall_map. apply Forall_forall. intros o _.
  now apply floor_cell.
Qed.

(** C6.  For a model with a non-empty instance table,
    [predict_marginalized_over_instances] raises the shape error exactly
    when [X] is not of rank 2 or its column count differs from the length
    of [types] minus the width of the instance features; the message for
    the column count cites the expected and the actual count.  The check
    precedes the loop: on such an [X] the same error is raised whatever
    the library, the forest and the stored data are, so no row is
    processed and nothing else is returned. *)
Theorem marginalized_shape_errors {L : PyrfrLib}
  (self : model) (feats : matrix) (X : ndarray float) :
  instance_features self = Some feats -> nrows feats <> 0%nat ->
  (rank X <> 2%nat ->
   predict_marginalized_over_instances self X =
     Raise (ValueError
       ("Expected 2d array, got " ++ dec (Z.of_nat (rank X)) ++ "d array!")))
  /\
  (rank X = 2%nat ->
   Z.of_nat (shape1 X) <>
     Z.of_nat (List.length (types self)) - Z.of_nat (ncols feats) ->
   predict_marginalized_over_instances self X =
     Raise (ValueError
       ("Rows in X should have "
          ++ dec (Z.of_nat (List.length (types self)) - Z.of_nat (ncols feats))
          ++ " entries but have " ++ dec (Z.of_nat (shape1 X)) ++ "!")))
  /\
  ((exists msg,
      predict_marginalized_over_instances self X = Raise (ValueError msg)) <->
   (rank X <> 2%nat \/
    Z.of_nat (shape1 X) <>
      Z.of_nat (List.length (types self)) - Z.of_nat (ncols feats)))
  /\
  (forall (L' : PyrfrLib) (other : @model L'),
     instance_features other = Some feats ->
     types other = types self ->
     rank X <> 2%nat \/
     Z.of_nat (shape1 X) <>
       Z.of_nat (List.length (types self)) - Z.of_nat (ncols feats) ->
     exists msg,
       predict_marginalized_over_instances self X = Raise (ValueError msg) /\
       predict_marginalized_over_instances other X = Raise (ValueError msg)).
Proof.
  intros Hf Hn.
  assert (Hrank : rank X <> 2%nat ->
    predict_marginalized_over_instances self X =
      Raise (ValueError (rank_message (rank X)))).
  { intros Hr. rewrite (with_instances_per_row self feats X Hf Hn).
    now apply per_row_wrong_rank. }
  assert (Hcols : rank X = 2%nat ->
    Z.of_nat (shape1 X) <> config_width self feats ->
    predict_marginalized_over_instances self X =
      Raise (ValueError
               (columns_message (config_width self feats)
                  (Z.of_nat (shape1 X))))).
  { intros Hr Hc. rewrite (with_instances_per_row self feats X Hf Hn).
    now apply per_row_wrong_columns. }
  split; [exact Hrank | ]. split; [exact Hcols | ]. split.
  - split.
    + intros [msg H].
      destruct (Nat.eq_dec (rank X) 2) as [Hr | Hr]; [ | now left].
      destruct (Z.eq_dec (Z.of_nat (shape1 X)) (config_width self feats))
        as [Hc | Hc]; [ | now right].
      exfalso.
      rewrite (with_instances_per_row self feats X Hf Hn) in H.
      rewrite (per_row_valid self feats X Hr Hc) in H.
      destruct (marginalize_rows self (ncols feats)
                  (rows_of (shape0 X) (shape1 X) (cells X)))
        as [[mean var] | e] eqn:Hloop; simpl in H; [discriminate | ].
      apply (marginalize_rows_no_value_error self (ncols feats)
               (rows_of (shape0 X) (shape1 X) (cells X)) msg).
      congruence.
    + intros [Hr | Hc].
      * eexists. now apply Hrank.
      * destruct (Nat.eq_dec (rank X) 2) as [Hr | Hr].
        -- eexists. now apply Hcols.
        -- eexists. now apply Hrank.
  - intros L' other Hf' Ht Hbad.
    assert (Hw : config_width other feats = config_width self feats).
    { unfold config_width. now rewrite Ht. }
    rewrite (with_instances_per_row other feats X Hf' Hn).
    destruct (Nat.eq_dec (rank X) 2) as [Hr | Hr].
    + destruct Hbad as [Hbad | Hbad]; [contradiction | ].
      eexists. split; [now apply Hcols | ].
      rewrite <- Hw. apply per_row_wrong_columns; trivial.
      now rewrite Hw.
    + eexists. split; [now apply Hrank | ].
      now apply per_row_wrong_rank.
Qed.

(** ** The constructor *)

Lemma trunc_mag_nonneg (m : positive) (e : Z) : 0 <= trunc_mag m e.
Proof.
  unfold trunc_mag. destruct e;
    (apply Z.shiftl_nonneg || apply Z.shiftr_nonneg); lia.
Qed.

Lemma ceil_mag_nonneg (m : positive) (e : Z) : 0 <= ceil_mag m e.
Proof.
  unfold ceil_mag. destruct e as [ | p | p];
    try (apply Z.shiftl_nonneg; lia).
  assert (0 <= Z.shiftr (Z.pos m) (Z.pos p)) by (apply Z.shiftr_nonneg; lia).
  cbv zeta. destruct (Z.eqb _ _); lia.
Qed.

Lemma mag_exact (m : positive) (e : Z) :
  0 <= e ->
  trunc_mag m e = Z.pos m * 2 ^ e /\ ceil_mag m e = Z.pos m * 2 ^ e.
Proof.
  intros He. unfold trunc_mag, ceil_mag.
  destruct e as [ | p | p]; try lia; now rewrite Z.shiftl_mul_pow2.
Qed.

Lemma trunc_mag_div (m : positive) (p : positive) :
  trunc_mag m (Z.neg p) = Z.pos m / 2 ^ Z.pos p.
Proof. unfold trunc_mag. now rewrite Z.shiftr_div_pow2. Qed.

Lemma ceil_mag_div (m : positive) (p : positive) :
  ceil_mag m (Z.neg p) =
    if Z.eqb (Z.pos m / 2 ^ Z.pos p * 2 ^ Z.pos p) (Z.pos m)
    then Z.pos m / 2 ^ Z.pos p else Z.pos m / 2 ^ Z.pos p + 1.
Proof.
  unfold ceil_mag. cbv zeta.
  now rewrite Z.shiftr_div_pow2, Z.shiftl_mul_pow2.
Qed.

(** [floor] is the floor: for [x = v * 2^e] with [v] the signed mantissa,
    it is [x] itself when [e >= 0] and the integer [z] with
    [z <= x < z + 1] otherwise. *)
Lemma floor_bounds (s : bool) (m : positive) (e z : Z) :
  floor (S754_finite s m e) = Some z ->
  let v := if s then Z.neg m else Z.pos m in
  (0 <= e -> z = v * 2 ^ e) /\
  (e < 0 -> z * 2 ^ (- e) <= v < (z + 1) * 2 ^ (- e)).
Proof.
  intros H v. subst v. change (Z.neg m) with (- Z.pos m).
  assert (Hz : z = if s then - ceil_mag m e else trunc_mag m e)
    by (destruct s; unfold floor in H; congruence).
  clear H. split; intros He.
  - destruct (mag_exact m e He) as [Ht Hc]. rewrite Ht, Hc in Hz.
    destruct s; subst z; ring.
  - destruct e as [ | p | p]; try lia.
    assert (Hp : 0 < 2 ^ Z.pos p) by (apply Z.pow_pos_nonneg; lia).
    change (- Z.neg p) with (Z.pos p).
    pose proof (Z.div_mod (Z.pos m) (2 ^ Z.pos p) ltac:(lia)) as Hdm.
    pose proof (Z.mod_pos_bound (Z.pos m) (2 ^ Z.pos p) Hp) as Hmod.
    rewrite trunc_mag_div, ceil_mag_div in Hz.
    destruct s; subst z.
    + destruct (Z.eqb_spec (Z.pos m / 2 ^ Z.pos p * 2 ^ Z.pos p) (Z.pos m));
        nia.
    + nia.
Qed.

Section ConstructorLemmas.

Context {L : PyrfrLib}.

(** The constructor's truncation and the floor of the specification give
    the same [max_features]. *)
Lemma init_max_features_defined (types : list nat) (ratio_features : float) :
  max_features_defined types ratio_features ->
  exists mf,
    init_max_features types ratio_features = Ok mf /\
    spec_max_features (Z.of_nat (List.length types)) ratio_features = Some mf
    /\ (ge ratio_features one = true -> mf = 0).
Proof.
  unfold max_features_defined, init_max_features, spec_max_features.
  intros H. destruct (ge ratio_features one) eqn:Hge.
  - exists 0. repeat split.
  - destruct H as [H | H]; [discriminate | ].
    destruct (mul _ ratio_features) as [s | s | | s m e]; simpl in *;
      try discriminate.
    + exists 1. repeat split; discriminate.
    + pose proof (trunc_mag_nonneg m e). pose proof (ceil_mag_nonneg m e).
      destruct s; simpl.
      * exists 1. repeat split; try discriminate; do 2 f_equal; lia.
      * eexists. repeat split; discriminate.
Qed.

Lemma init_max_features_undefined (types : list nat) (ratio_features : float)
  (mf : Z) :
  init_max_features types ratio_features = Ok mf ->
  max_features_defined types ratio_features.
Proof.
  unfold max_features_defined, init_max_features.
  destruct (ge ratio_features one); [now left | right].
  destruct (mul _ ratio_features); simpl in *; trivial; discriminate.
Qed.

(** What a successful construction stores. *)
Lemma init_ok (a : init_args) (mf : Z) :
  init_max_features (a_types a) (a_ratio_features a) = Ok mf ->
  exists self,
    init a = Ok self /\
    max_features (rf self) = mf /\
    data self = None /\
    fitted (rf self) = fresh_trees /\
    var_threshold self = var_threshold_value /\
    (a_instance_features a = None ->
     types self = a_types a ++ [0%nat] /\
     instance_features self = Some (mk_matrix 1 1 [zero])) /\
    (forall f, a_instance_features a = Some f ->
     types self = a_types a /\ instance_features self = Some f).
Proof.
  intros H. unfold init. rewrite H.
  destruct (a_instance_features a) as [f | ]; simpl; eexists;
    (split; [reflexivity | ]); simpl; repeat split;
    try discriminate; intros; congruence.
Qed.

(** Construction succeeds exactly when the integer conversion is
    defined. *)
Lemma init_succeeds_iff (a : init_args) :
  (exists self, init a = Ok self) <->
  max_features_defined (a_types a) (a_ratio_features a).
Proof.
  split.
  - intros [self H]. unfold init in H.
    destruct (init_max_features (a_types a) (a_ratio_features a)) as [mf | e]
      eqn:Hmf.
    + now apply init_max_features_undefined with mf.
    + destruct (a_instance_features a); discriminate.
  - intros H. destruct (init_max_features_defined _ _ H) as (mf & Hmf & _).
    destruct (init_ok a mf Hmf) as (self & Hs & _). now exists self.
Qed.

End ConstructorLemmas.

(** C7.  A construction without instance features stores [types] with
    one extra entry 0 (continuous) appended and an instance table of one
    row and one column holding 0; a construction with instance features
    stores [types] and the table exactly as given. *)
Theorem constructor_stores_features {L : PyrfrLib} (a : init_args) :
  max_features_defined (a_types a) (a_ratio_features a) ->
  exists self,
    init a = Ok self /\
    (a_instance_features a = None ->
     types self = a_types a ++ [0%nat] /\
     instance_features self = Some (mk_matrix 1 1 [zero])) /\
    (forall f, a_instance_features a = Some f ->
     types self = a_types a /\ instance_features self = Some f).
Proof.
  intros H. destruct (init_max_features_defined _ _ H) as (mf & Hmf & _).
  destruct (init_ok a mf Hmf) as (self & Hs & _ & _ & _ & _ & Hn & Hf).
  exists self. auto.
Qed.

(** C9, as the code has it.  The forest's [max_features] is 0 when
    [ratio_features >= 1.0] and otherwise the larger of 1 and the floor of
    [D * ratio_features], the product taken in floating point, where [D]
    is the length of the [types] argument as passed in.  Without instance
    features that is the stored length less the appended dummy entry;
    with instance features the stored [types] is the argument itself, so
    [D] is the configuration width plus the width of the instance
    features. *)
Theorem constructor_max_features {L : PyrfrLib} (a : init_args) :
  max_features_defined (a_types a) (a_ratio_features a) ->
  exists self,
    init a = Ok self /\
    spec_max_features (Z.of_nat (List.length (a_types a)))
      (a_ratio_features a) = Some (max_features (rf self)) /\
    (ge (a_ratio_features a) one = true -> max_features (rf self) = 0) /\
    (a_instance_features a = None ->
     Z.of_nat (List.length (a_types a)) =
       Z.of_nat (List.length (types self)) - 1) /\
    (forall f, a_instance_features a = Some f ->
     Z.of_nat (List.length (a_types a)) =
       config_width self f + Z.of_nat (ncols f)).
Proof.
  intros H.
  destruct (init_max_features_defined _ _ H) as (mf & Hmf & Hspec & Hge).
  destruct (init_ok a mf Hmf) as (self & Hs & Hm & _ & _ & _ & Hn & Hf).
  exists self. rewrite Hm. repeat split; trivial.
  - intros Hnone. destruct (Hn Hnone) as [Ht _]. rewrite Ht, length_app.
    simpl. lia.
  - intros f Hsome. destruct (Hf f Hsome) as [Ht _]. unfold config_width.
    rewrite Ht. lia.
Qed.

(** C10, as the code has it.  A constructed model never stores [None] as
    its instance table.  Constructed without instance features it stores
    the single zero row, and the guard of the no-instance branch is
    false; constructed with a table it stores that table, and the guard
    is false exactly when the table has at least one row.  When the guard
    is false [predict_marginalized_over_instances] is the per-row path,
    when it is true it is the no-instance branch. *)
Theorem constructor_instance_table {L : PyrfrLib} (a : init_args) :
  max_features_defined (a_types a) (a_ratio_features a) ->
  exists self,
    init a = Ok self /\
    instance_features self <> None /\
    (a_instance_features a = None ->
     instance_features self = Some (zeros2 1 1) /\
     no_instances self = false) /\
    (forall f, a_instance_features a = Some f ->
     instance_features self = Some f /\
     (no_instances self = false <-> nrows f <> 0%nat)) /\
    (forall X, no_instances self = false ->
     exists feats,
       instance_features self = Some feats /\
       predict_marginalized_over_instances self X =
         predict_per_row self feats X) /\
    (forall X, no_instances self = true ->
     predict_marginalized_over_instances self X =
       predict_no_instances self X).
Proof.
  intros H. destruct (init_max_features_defined _ _ H) as (mf & Hmf & _).
  destruct (init_ok a mf Hmf) as (self & Hs & _ & _ & _ & _ & Hn & Hf).
  exists self. split; [exact Hs | ].
  split.
  { destruct (a_instance_features a) as [f | ] eqn:Ha.
    - destruct (Hf f eq_refl) as [_ Hi]. congruence.
    - destruct (Hn eq_refl) as [_ Hi]. congruence. }
  split.
  { intros Hnone. destruct (Hn Hnone) as [_ Hi]. split; [exact Hi | ].
    unfold no_instances. rewrite Hi. reflexivity. }
  split.
  { intros f Hsome. destruct (Hf f Hsome) as [_ Hi]. split; [exact Hi | ].
    unfold no_instances. rewrite Hi. rewrite <- Nat.eqb_neq. tauto. }
  split.
  - intros X Hg. unfold predict_marginalized_over_instances. rewrite Hg.
    unfold no_instances in Hg.
    destruct (instance_features self) as [feats | ]; [ | discriminate].
    now exists feats.
  - intros X Hg. unfold predict_marginalized_over_instances.
    now rewrite Hg.
Qed.

(** C3, as the code has it.  The wrapper keeps no record of training and
    checks none.  On a freshly constructed model [predict] validates the
    shape of [X] and otherwise hands [X] to the unfitted forest, returning
    or failing as the library does; with a non-empty instance table
    [predict_marginalized_over_instances] validates the shape, then
    returns two empty columns when [X] has no row and fails on the
    missing attribute [data] when [X] has a row. *)
Theorem untrained_model_predictions {L : PyrfrLib} (a : init_args)
  (X : ndarray float) :
  max_features_defined (a_types a) (a_ratio_features a) ->
  exists self,
    init a = Ok self /\
    data self = None /\
    fitted (rf self) = fresh_trees /\
    (rank X <> 2%nat ->
     predict self X = Raise (ValueError (rank_message (rank X)))) /\
    (rank X = 2%nat -> shape1 X <> List.length (types self) ->
     predict self X =
       Raise (ValueError
                (columns_message (Z.of_nat (List.length (types self)))
                   (Z.of_nat (shape1 X))))) /\
    (rank X = 2%nat -> shape1 X = List.length (types self) ->
     predict self X =
       ('(means, vars) <- lift (batch_predictions (rf self) X) ;;
        Ok (reshape_col means, reshape_col vars))) /\
    (forall feats,
       instance_features self = Some feats -> nrows feats <> 0%nat ->
       rank X = 2%nat -> Z.of_nat (shape1 X) = config_width self feats ->
       (shape0 X = 0%nat ->
        predict_marginalized_over_instances self X =
          Ok (mk_ndarray [0%nat; 1%nat] [], mk_ndarray [0%nat; 1%nat] [])) /\
       (shape0 X <> 0%nat ->
        predict_marginalized_over_instances self X =
          Raise (AttributeError
            "'RandomForestWithInstances' object has no attribute 'data'"))).
Proof.
  intros H. destruct (init_max_features_defined _ _ H) as (mf & Hmf & _).
  destruct (init_ok a mf Hmf) as (self & Hs & _ & Hd & Hfit & _).
  exists self. split; [exact Hs | ]. split; [exact Hd | ].
  split; [exact Hfit | ].
  split; [apply predict_wrong_rank | ].
  split; [apply predict_wrong_columns | ].
  split; [apply predict_valid | ].
  intros feats Hf Hn Hr Hc.
  rewrite (with_instances_per_row self feats X Hf Hn).
  rewrite (per_row_valid self feats X Hr Hc).
  split; intros H0.
  - rewrite H0. reflexivity.
  - destruct (shape0 X) as [ | n]; [contradiction | ].
    simpl rows_of. rewrite marginalize_rows_without_data by exact Hd.
    reflexivity.
Qed.

(** C2, as the code has it.  A model whose store holds only the dummy
    row does not enter the no-instance branch: it takes the per-row path,
    which expects one column less than [types] has, pads each row with
    one zero, asks the forest for the prediction marginalized over the
    stored data, floors each variance and returns columns.  The
    no-instance branch is the call for a model whose table is absent or
    empty; it calls [predict] on [X] as given, without padding, and then
    applies the variance floor. *)
Theorem dummy_store_takes_per_row_path {L : PyrfrLib} (self : model)
  (X : ndarray float) :
  instance_features self = Some (zeros2 1 1) ->
  no_instances self = false /\
  predict_marginalized_over_instances self X =
    predict_per_row self (zeros2 1 1) X /\
  (forall d outs,
     data self = Some d -> rank X = 2%nat ->
     Z.of_nat (shape1 X) = Z.of_nat (List.length (types self)) - 1 ->
     Forall2
       (fun x o =>
          lib_predict_marginalized_over_instances (rf self) (x ++ [zero]) d
            = LibOk o)
       (rows_of (shape0 X) (shape1 X) (cells X)) outs ->
     predict_marginalized_over_instances self X =
       Ok (mk_ndarray [shape0 X; 1%nat] (map fst outs),
           mk_ndarray [shape0 X; 1%nat]
             (map (fun o =>
                     floor_nan (var_threshold self)
                       (floor_low (var_threshold self) (snd o))) outs))) /\
  (forall other : model,
     no_instances other = true ->
     predict_marginalized_over_instances other X =
       ('(mean, var) <- predict other X ;;
        Ok (mean, variance_floor (var_threshold other) var))).
Proof.
  intros Hf.
  assert (Hn : nrows (zeros2 1 1) <> 0%nat) by discriminate.
  split; [exact (no_instances_false self _ Hf Hn) | ].
  split; [exact (with_instances_per_row self _ X Hf Hn) | ].
  split.
  - intros d outs Hd Hr Hc Houts.
    rewrite (with_instances_per_row self _ X Hf Hn).
    rewrite (per_row_valid self (zeros2 1 1) X Hr Hc).
    change (ncols (zeros2 1 1)) with 1%nat.
    rewrite (marginalize_rows_ok self 1 d _ outs Hd Houts). simpl.
    unfold reshape_col, variance_floor, size. simpl.
    rewrite Nat.mul_1_r, !map_map.
    do 3 f_equal. apply map_ext. intros o. now rewrite floor_low_idem.
  - intros other Hg. unfold predict_marginalized_over_instances.
    rewrite Hg. reflexivity.
Qed.

(** ** Sample runs *)

Example stump_untrained_constructed :
  init Sample.two_dims = Ok Sample.stump_untrained.
Proof. reflexivity. Qed.

Example stump_same_trained :
  Sample.init_then_train Sample.two_dims Sample.configs Sample.f_map
    Sample.y_same = Ok Sample.stump_same.
Proof. reflexivity. Qed.

Example stump_instances_trained :
  Sample.init_then_train Sample.with_instances Sample.configs Sample.f_map
    Sample.y_same = Ok Sample.stump_instances.
Proof. reflexivity. Qed.

Example stump_empty_table_constructed :
  init Sample.with_empty_table = Ok Sample.stump_empty_table.
Proof. reflexivity. Qed.

Example probe_trained_trained :
  Sample.init_then_train Sample.two_dims Sample.configs Sample.f_map
    Sample.y_same = Ok Sample.probe_trained.
Proof. reflexivity. Qed.

(** Three columns against a stored [types] of length 2: the message
    cites "2" and "3". *)
Example predict_three_columns_for_two :
  (self <- init (L := Stump.lib) (default_args [0%nat] None) ;;
   predict self Sample.X_padded) =
    Raise (ValueError "Rows in X should have 2 entries but have 3!").
Proof. reflexivity. Qed.

Example predict_flat_vector :
  predict Sample.stump_same Sample.X_flat =
    Raise (ValueError "Expected 2d array, got 1d array!").
Proof. reflexivity. Qed.

(** ** Where the claims of the specification and the code part *)

(** C1 fails as stated.  Trained on identical targets, the forest of
    single leaves answers with variance 0, and [predict] returns that 0,
    which is below the threshold. *)
Lemma predict_variance_below_threshold :
  exists means vars,
    predict Sample.stump_same Sample.X_padded = Ok (means, vars) /\
    rank Sample.X_padded = 2%nat /\
    shape1 Sample.X_padded = List.length (types Sample.stump_same) /\
    cells vars = [zero] /\
    lt zero (var_threshold Sample.stump_same) = true /\
    ~ Forall (fun v => ge v var_threshold_value = true) (cells vars).
Proof.
  eexists. eexists. split; [reflexivity | ].
  repeat split. intros H. inversion H as [ | v l Hv Hl]. discriminate Hv.
Qed.

(** C2 fails as stated.  The model constructed without instance features
    holds the dummy row, its guard is false, and with the library double
    its marginalized prediction is the answer of the marginalized entry
    point (mean 2), not that of [predict] on the padded [X] followed by
    the floor (mean 1). *)
Lemma dummy_store_not_degenerate :
  instance_features Sample.probe_trained = Some (zeros2 1 1) /\
  no_instances Sample.probe_trained = false /\
  predict_marginalized_over_instances Sample.probe_trained Sample.X_config
    = Ok (mk_ndarray [1%nat; 1%nat] [of_int 2],
          mk_ndarray [1%nat; 1%nat] [one]) /\
  predict_no_instances Sample.probe_trained (pad_dummy Sample.X_config)
    = Ok (mk_ndarray [1%nat; 1%nat] [one],
          mk_ndarray [1%nat; 1%nat] [one]) /\
  predict_marginalized_over_instances Sample.probe_trained Sample.X_config
    <> predict_no_instances Sample.probe_trained (pad_dummy Sample.X_config).
Proof.
  assert (E1 :
    predict_marginalized_over_instances Sample.probe_trained Sample.X_config
      = Ok (mk_ndarray [1%nat; 1%nat] [of_int 2],
            mk_ndarray [1%nat; 1%nat] [one])) by reflexivity.
  assert (E2 :
    predict_no_instances Sample.probe_trained (pad_dummy Sample.X_config)
      = Ok (mk_ndarray [1%nat; 1%nat] [one],
            mk_ndarray [1%nat; 1%nat] [one])) by reflexivity.
  repeat split; trivial.
  rewrite E1, E2. intros H. injection H as H. cbv in H. discriminate H.
Qed.

(** C3 fails as stated.  On a model that was never trained,
    [predict_marginalized_over_instances] returns a result for an [X]
    without rows, and [predict] fails on a flat vector with the shape
    error. *)
Lemma untrained_model_returns :
  init Sample.two_dims = Ok Sample.stump_untrained /\
  data Sample.stump_untrained = None /\
  predict_marginalized_over_instances Sample.stump_untrained
    Sample.X_no_rows
    = Ok (mk_ndarray [0%nat; 1%nat] [], mk_ndarray [0%nat; 1%nat] []) /\
  predict Sample.stump_untrained Sample.X_flat
    = Raise (ValueError "Expected 2d array, got 1d array!").
Proof. repeat split; reflexivity. Qed.

(** C9 fails as stated.  With one instance feature among three entries
    of [types] and ratio 0.7 the constructor sets [max_features] to 2,
    from [D = 3]; the configuration dimensions alone, 2 of them, would
    give 1. *)
Lemma max_features_counts_instance_dimensions :
  exists self : @model Stump.lib,
    init Sample.with_instances_07 = Ok self /\
    max_features (rf self) = 2 /\
    config_width self Sample.two_instances = 2 /\
    spec_max_features (config_width self Sample.two_instances)
      (a_ratio_features Sample.with_instances_07) = Some 1.
Proof. eexists. repeat split; reflexivity. Qed.

(** C10 fails as stated.  A model constructed with a supplied table
    without rows stores that table; the guard of the no-instance branch
    is true, and that branch is taken. *)
Lemma empty_table_takes_no_instance_branch :
  init Sample.with_empty_table = Ok Sample.stump_empty_table /\
  instance_features Sample.stump_empty_table = Some Sample.no_rows_table /\
  nrows Sample.no_rows_table = 0%nat /\
  no_instances Sample.stump_empty_table = true /\
  forall X,
    predict_marginalized_over_instances Sample.stump_empty_table X =
      predict_no_instances Sample.stump_empty_table X.
Proof. repeat split; reflexivity. Qed.

(** ** The theorems at sample inputs *)

Lemma predict_returns_forest_variances_witness :
  predict Sample.stump_same Sample.X_padded =
    Ok (mk_ndarray [1%nat; 1%nat] [of_int 2],
        mk_ndarray [1%nat; 1%nat] [zero]).
Proof.
  exact (proj1 (predict_returns_forest_variances (L := Stump.lib)
                  Sample.stump_same Sample.X_padded
                  (mk_ndarray [1%nat] [of_int 2]) (mk_ndarray [1%nat] [zero])
                  eq_refl eq_refl eq_refl)).
Defined.

Lemma predict_columns_and_train_returns_self_witness :
  (exists m v,
     predict Sample.stump_same Sample.X_padded = Ok (m, v) /\
     shape m = [1%nat; 1%nat] /\ shape v = [1%nat; 1%nat]) /\
  train Sample.stump_untrained Sample.configs Sample.f_map Sample.y_same
    = (Ok RSelf, Sample.stump_same) /\
  shape (flatten Sample.y_same) = [3%nat].
Proof.
  edestruct (predict_columns_and_train_returns_self (L := Stump.lib)
               Sample.stump_same Sample.X_padded
               (mk_ndarray [1%nat] [of_int 2]) (mk_ndarray [1%nat] [zero])
               Sample.stump_untrained
               (zeros2 1 1) Sample.configs Sample.f_map Sample.y_same)
    as ((m & v & Hp & Hm & Hv & _) & Ht & Hy & _);
    [reflexivity | reflexivity | reflexivity | reflexivity | reflexivity
    | reflexivity | reflexivity | reflexivity | reflexivity | reflexivity | ].
  split; [exists m, v; auto | ].
  split; [rewrite Ht; reflexivity | exact Hy].
Defined.

Lemma marginalized_variance_floor_witness :
  exists mean var,
    predict_marginalized_over_instances Sample.stump_instances
      Sample.X_config = Ok (mean, var) /\
    cells var = [var_threshold_value].
Proof.
  destruct (marginalized_variance_floor (L := Stump.lib)
              Sample.stump_instances Sample.two_instances
              (Stump.mk_store 2 1 (Some Sample.configs)
                 (Some Sample.two_instances)
                 (Some (Sample.f_map, flatten Sample.y_same)))
              Sample.X_config [(of_int 2, zero)]
              eq_refl ltac:(discriminate) eq_refl eq_refl eq_refl eq_refl
              ltac:(repeat constructor))
    as (mean & var & Hp & _ & _ & _ & Hc & _).
  exists mean, var. split; [exact Hp | exact Hc].
Defined.

Lemma marginalized_shape_errors_witness :
  predict_marginalized_over_instances Sample.stump_instances
    Sample.X_padded =
    Raise (ValueError "Rows in X should have 2 entries but have 3!").
Proof.
  exact (proj1 (proj2 (marginalized_shape_errors (L := Stump.lib)
                         Sample.stump_instances Sample.two_instances
                         Sample.X_padded eq_refl ltac:(discriminate)))
           eq_refl ltac:(discriminate)).
Defined.

Lemma sample_ratio_defined :
  max_features_defined (a_types Sample.two_dims)
    (a_ratio_features Sample.two_dims).
Proof. right. reflexivity. Defined.

Lemma constructor_stores_features_witness :
  exists self : @model Stump.lib,
    init Sample.two_dims = Ok self /\
    types self = [0%nat; 0%nat; 0%nat] /\
    instance_features self = Some (mk_matrix 1 1 [zero]).
Proof.
  destruct (constructor_stores_features (L := Stump.lib) Sample.two_dims
              sample_ratio_defined) as (self & Hs & Hn & _).
  exists self. destruct (Hn eq_refl) as [Ht Hi]. auto.
Defined.

Lemma constructor_max_features_witness :
  exists self : @model Stump.lib,
    init Sample.with_instances_07 = Ok self /\
    spec_max_features 3 Sample.ratio_07 = Some (max_features (rf self)).
Proof.
  destruct (constructor_max_features (L := Stump.lib) Sample.with_instances_07
              (or_intror eq_refl)) as (self & Hs & Hm & _).
  exists self. auto.
Defined.

Lemma constructor_instance_table_witness :
  exists self : @model Stump.lib,
    init Sample.two_dims = Ok self /\
    instance_features self = Some (zeros2 1 1) /\
    no_instances self = false.
Proof.
  destruct (constructor_instance_table (L := Stump.lib) Sample.two_dims
              sample_ratio_defined) as (self & Hs & _ & Hn & _).
  exists self. destruct (Hn eq_refl) as [Hi Hg]. auto.
Defined.

Lemma untrained_model_predictions_witness :
  exists self : @model Stump.lib,
    init Sample.two_dims = Ok self /\
    data self = None /\
    predict self Sample.X_flat =
      Raise (ValueError "Expected 2d array, got 1d array!").
Proof.
  destruct (untrained_model_predictions (L := Stump.lib) Sample.two_dims
              Sample.X_flat sample_ratio_defined)
    as (self & Hs & Hd & _ & Hr & _).
  exists self. split; [exact Hs | ]. split; [exact Hd | ].
  apply Hr. discriminate.
Defined.

Lemma dummy_store_takes_per_row_path_witness :
  no_instances Sample.stump_same = false /\
  predict_marginalized_over_instances Sample.stump_same Sample.X_config =
    predict_per_row Sample.stump_same (zeros2 1 1) Sample.X_config.
Proof.
  destruct (dummy_store_takes_per_row_path (L := Stump.lib) Sample.stump_same
              Sample.X_config eq_refl) as (Hg & Hp & _).
  split; [exact Hg | exact Hp].
Defined.

(** * Further properties of the wrapper *)

(** ** Floats and the floor *)

Lemma ge_not_lt (x y : float) : ge x y = true -> lt x y = false.
Proof.
  unfold ge, lt, SFleb, SFltb.
  destruct (SFcompare y x) as [c | ] eqn:H; [ | discriminate].
  rewrite (SFcompare_antisym _ _ _ H).
  destruct c; simpl; trivial; discriminate.
Qed.

Lemma ge_not_nan (x y : float) : ge x y = true -> isnan x = false.
Proof. destruct x, y; simpl; trivial; discriminate. Qed.

(** The two assignments together: the threshold replaces a cell that is
    NaN or below it, any other cell stays. *)
Lemma floor_value (thr v : float) :
  floor_nan thr (floor_low thr v) =
    if isnan v || lt v thr then thr else v.
Proof.
  unfold floor_nan, floor_low.
  destruct (lt v thr) eqn:Hlt, (isnan v) eqn:Hnan; simpl;
    rewrite ?Hnan; trivial; destruct (isnan thr); reflexivity.
Qed.

Lemma floor_keeps (thr v : float) :
  ge v thr = true -> floor_nan thr (floor_low thr v) = v.
Proof.
  intros H. rewrite floor_value, (ge_not_lt _ _ H), (ge_not_nan _ _ H).
  reflexivity.
Qed.

Lemma mul_nan (x : float) : mul x S754_nan = S754_nan.
Proof. destruct x; reflexivity. Qed.

(** ** train *)

Section TrainLemmas.

Context {L : PyrfrLib}.

Lemma build_data_error (feats configs : matrix) (f_map : ndarray nat)
  (y : ndarray float) (e : exn) :
  build_data feats configs f_map y = Raise e ->
  exists msg, e = LibraryError msg.
Proof.
  unfold build_data.
  destruct (import_configurations _ configs) as [d1 | m1]; simpl;
    [ | intros H; injection H as <-; eauto].
  destruct (import_instances d1 feats) as [d2 | m2]; simpl;
    [ | intros H; injection H as <-; eauto].
  destruct (add_data_points d2 f_map y) as [d3 | m3]; simpl;
    [discriminate | intros H; injection H as <-; eauto].
Qed.

(** The three ways [train] ends when the model has an instance table. *)
Lemma train_cases (self : model) (feats configs : matrix)
  (f_map : ndarray nat) (y : ndarray float) :
  instance_features self = Some feats ->
  (exists e,
     build_data feats configs f_map (flatten y) = Raise e /\
     train self configs f_map y = (Raise e, self)) \/
  (exists d,
     build_data feats configs f_map (flatten y) = Ok d /\
     ((exists t,
         fit (rf self) d = (t, LibOk tt) /\
         train self configs f_map y =
           (Ok RSelf, set_rf (set_data self d) (set_fitted (rf self) t))) \/
      (exists t msg,
         fit (rf self) d = (t, LibFail msg) /\
         train self configs f_map y =
           (Raise (LibraryError msg),
            set_rf (set_data self d) (set_fitted (rf self) t))))).
Proof.
  intros Hf. unfold train. rewrite Hf.
  destruct (build_data feats configs f_map (flatten y)) as [d | e].
  - right. exists d. split; trivial. simpl.
    destruct (fit (rf self) d) as [t [[] | msg]]; simpl.
    + left. now exists t.
    + right. now exists t, msg.
  - left. now exists e.
Qed.

End TrainLemmas.

(** X1.  [train] assigns two attributes only, [data] and, through
    [fit], the forest, and hands the library nothing but the instance
    table, the forest and its own arguments.  Whatever its arguments and
    however it ends, the feature types, the hyperparameter list, the seed
    and the variance threshold are as they were; training therefore never
    changes which arrays [predict] accepts, nor the message it rejects
    the others with. *)
Theorem train_preserves_configuration {L : PyrfrLib} (self : model)
  (configs : matrix) (f_map : ndarray nat) (y : ndarray float) :
  let self' := snd (train self configs f_map y) in
  types self' = types self /\
  hypers self' = hypers self /\
  seed self' = seed self /\
  var_threshold self' = var_threshold self /\
  forall X msg,
    predict self' X = Raise (ValueError msg) <->
    predict self X = Raise (ValueError msg).
Proof.
  assert (H : let self' := snd (train self configs f_map y) in
              types self' = types self /\
              instance_features self' = instance_features self /\
              hypers self' = hypers self /\
              seed self' = seed self /\
              var_threshold self' = var_threshold self).
  { destruct (instance_features self) as [feats | ] eqn:Hf.
    - destruct (train_cases self feats configs f_map y Hf)
        as [(e & _ & Ht) | (d & _ & [(t & _ & Ht) | (t & msg & _ & Ht)])];
        rewrite Ht; simpl; rewrite ?Hf; repeat split.
    - unfold train. rewrite Hf. simpl. rewrite Hf. repeat split. }
  cbv zeta in *. destruct H as (Ht & _ & Hh & Hs & Hv).
  repeat (split; [assumption | ]).
  set (self' := snd (train self configs f_map y)) in *.
  assert (Hsame : forall X msg,
            forall a b : model, types a = types b ->
            predict a X = Raise (ValueError msg) ->
            predict b X = Raise (ValueError msg)).
  { intros X msg a b Hab Ha.
    destruct (Nat.eq_dec (rank X) 2) as [Hr | Hr].
    - destruct (Nat.eq_dec (shape1 X) (List.length (types a))) as [Hc | Hc].
      + rewrite (predict_valid a X Hr Hc) in Ha.
        destruct (batch_predictions (rf a) X) as [[m v] | m];
          simpl in Ha; discriminate.
      + rewrite (predict_wrong_columns a X Hr Hc) in Ha.
        rewrite Hab in *. now rewrite (predict_wrong_columns b X Hr Hc).
    - rewrite (predict_wrong_rank a X Hr) in Ha.
      now rewrite (predict_wrong_rank b X Hr). }
  intros X msg. split; apply Hsame; congruence.
Qed.

(** X2.  A failing [train] on a model with an instance table fails with
    the library's error and in one of two states.  If the container
    could not be built the object is unchanged, and keeps its earlier
    data and forest; if the container was built and [fit] failed, the new
    container already replaced the stored data. *)
Theorem train_failure_states {L : PyrfrLib} (self : model)
  (feats configs : matrix) (f_map : ndarray nat) (y : ndarray float)
  (e : exn) :
  instance_features self = Some feats ->
  fst (train self configs f_map y) = Raise e ->
  (exists msg, e = LibraryError msg) /\
  ((build_data feats configs f_map (flatten y) = Raise e /\
    snd (train self configs f_map y) = self) \/
   (exists d,
      build_data feats configs f_map (flatten y) = Ok d /\
      snd (fit (rf self) d) <> LibOk tt /\
      data (snd (train self configs f_map y)) = Some d)).
Proof.
  intros Hf He.
  destruct (train_cases self feats configs f_map y Hf)
    as [(e' & Hb & Ht) | (d & Hb & [(t & Hfit & Ht) | (t & msg & Hfit & Ht)])];
    rewrite Ht in *; simpl in He.
  - injection He as <-. split; [now apply build_data_error in Hb | ].
    left. now split.
  - discriminate.
  - injection He as <-. split; [eauto | ]. right. exists d.
    rewrite Hfit. simpl. repeat split; trivial. discriminate.
Qed.

(** X3.  The container a successful [train] stores is built from a fresh
    container, the instance table and the arguments of that call alone:
    two models with the same instance table that are trained on the same
    arguments store the same data, whatever either held before. *)
Theorem train_replaces_data {L : PyrfrLib} (self other : model)
  (configs : matrix) (f_map : ndarray nat) (y : ndarray float) :
  instance_features self = instance_features other ->
  fst (train self configs f_map y) = Ok RSelf ->
  fst (train other configs f_map y) = Ok RSelf ->
  data (snd (train self configs f_map y)) =
    data (snd (train other configs f_map y)) /\
  exists feats d,
    instance_features self = Some feats /\
    build_data feats configs f_map (flatten y) = Ok d /\
    data (snd (train self configs f_map y)) = Some d.
Proof.
  intros Hi Hs Ho.
  destruct (instance_features self) as [feats | ] eqn:Hf.
  - symmetry in Hi.
    destruct (train_cases self feats configs f_map y Hf)
      as [(e & _ & Ht) | (d & Hb & [(t & _ & Ht) | (t & msg & _ & Ht)])];
      rewrite Ht in *; simpl in Hs; try discriminate.
    destruct (train_cases other feats configs f_map y Hi)
      as [(e & _ & Ht') | (d' & Hb' & [(t' & _ & Ht') | (t' & m & _ & Ht')])];
      rewrite Ht' in *; simpl in Ho; try discriminate.
    simpl. split; [congruence | ]. exists feats, d. auto.
  - unfold train in Hs. rewrite Hf in Hs. discriminate.
Qed.

(** ** Failures and results of the predictions *)

Section PredictionLemmas.

Context {L : PyrfrLib}.

(** What [predict] can raise. *)
Lemma predict_error (self : model) (X : ndarray float) (e : exn) :
  predict self X = Raise e ->
  (rank X <> 2%nat /\ e = ValueError (rank_message (rank X))) \/
  (rank X = 2%nat /\ shape1 X <> List.length (types self) /\
   e = ValueError
         (columns_message (Z.of_nat (List.length (types self)))
            (Z.of_nat (shape1 X)))) \/
  (rank X = 2%nat /\ shape1 X = List.length (types self) /\
   exists msg,
     batch_predictions (rf self) X = LibFail msg /\ e = LibraryError msg).
Proof.
  intros H.
  destruct (Nat.eq_dec (rank X) 2) as [Hr | Hr].
  - destruct (Nat.eq_dec (shape1 X) (List.length (types self))) as [Hc | Hc].
    + right. right. rewrite (predict_valid self X Hr Hc) in H.
      destruct (batch_predictions (rf self) X) as [[m v] | msg];
        simpl in H; [discriminate | ].
      injection H as <-. eauto.
    + right. left. rewrite (predict_wrong_columns self X Hr Hc) in H.
      injection H as <-. auto.
  - left. rewrite (predict_wrong_rank self X Hr) in H.
    injection H as <-. auto.
Qed.

(** With its data the loop fails only as the library does. *)
Lemma marginalize_rows_error (self : model) (k : nat) (d : container)
  (rows : list (list float)) (e : exn) :
  data self = Some d ->
  marginalize_rows self k rows = Raise e ->
  exists msg, e = LibraryError msg.
Proof.
  intros Hd. induction rows as [ | x rest IH]; simpl; [discriminate | ].
  unfold get_data. rewrite Hd. simpl.
  destruct (lib_predict_marginalized_over_instances _ _ d) as [[m v] | msg];
    simpl; [ | intros H; injection H as <-; eauto].
  destruct (marginalize_rows self k rest) as [[ms vs] | e']; simpl;
    [discriminate | ].
  intros H. injection H as <-. now apply IH.
Qed.

(** The loop ends well exactly when there is no row, or the data is
    there and the library answers every padded row. *)
Lemma marginalize_rows_ok_iff (self : model) (k : nat)
  (rows : list (list float)) :
  (exists r, marginalize_rows self k rows = Ok r) <->
  (rows = [] \/
   exists d,
     data self = Some d /\
     Forall
       (fun x =>
          exists o,
            lib_predict_marginalized_over_instances (rf self)
              (x ++ repeat zero k) d = LibOk o) rows).
Proof.
  split.
  - induction rows as [ | x rest IH]; [now left | ].
    intros [r H]. right. simpl in H. unfold get_data in H.
    destruct (data self) as [d | ] eqn:Hd; simpl in H; [ | discriminate].
    exists d. split; trivial.
    destruct (lib_predict_marginalized_over_instances _ _ d)
      as [[m v] | msg] eqn:Hx; simpl in H; [ | discriminate].
    destruct (marginalize_rows self k rest) as [[ms vs] | e'] eqn:Hrest;
      simpl in H; [ | discriminate].
    constructor; [eauto | ].
    destruct (IH (ex_intro _ _ eq_refl)) as [-> | (d' & Hd' & Hall)];
      [constructor | ].
    assert (d' = d) by congruence. now subst.
  - intros [-> | (d & Hd & Hall)]; [simpl; eauto | ].
    induction Hall as [ | x rest [[m v] Hx] _ [[ms vs] IH]]; simpl.
    + eauto.
    + unfold get_data. rewrite Hd. simpl. rewrite Hx. simpl. rewrite IH.
      simpl. eauto.
Qed.

End PredictionLemmas.

(** X4.  [predict] fails in three ways only: with the rank message when
    [X] is not of rank 2, with the column message when the rank is 2 and
    the column count is wrong, and, on an [X] of the right shape, with
    the failure of the forest's batch prediction, handed on unchanged. *)
Theorem predict_failures {L : PyrfrLib} (self : model) (X : ndarray float)
  (e : exn) :
  predict self X = Raise e ->
  (rank X <> 2%nat /\ e = ValueError (rank_message (rank X))) \/
  (rank X = 2%nat /\ shape1 X <> List.length (types self) /\
   e = ValueError
         (columns_message (Z.of_nat (List.length (types self)))
            (Z.of_nat (shape1 X)))) \/
  (rank X = 2%nat /\ shape1 X = List.length (types self) /\
   exists msg,
     batch_predictions (rf self) X = LibFail msg /\ e = LibraryError msg).
Proof. apply predict_error. Qed.

(** X5.  For a model with a non-empty instance table,
    [predict_marginalized_over_instances] returns a result exactly when
    [X] has rank 2 and the expected column count and, unless [X] has no
    row, the object has its data and the forest answers every row padded
    with zeros for the instance features. *)
Theorem marginalized_returns_iff {L : PyrfrLib} (self : model)
  (feats : matrix) (X : ndarray float) :
  instance_features self = Some feats -> nrows feats <> 0%nat ->
  ((exists r, predict_marginalized_over_instances self X = Ok r) <->
   (rank X = 2%nat /\
    Z.of_nat (shape1 X) =
      Z.of_nat (List.length (types self)) - Z.of_nat (ncols feats) /\
    (shape0 X = 0%nat \/
     exists d,
       data self = Some d /\
       Forall
         (fun x =>
            exists o,
              lib_predict_marginalized_over_instances (rf self)
                (x ++ repeat zero (ncols feats)) d = LibOk o)
         (rows_of (shape0 X) (shape1 X) (cells X))))).
Proof.
  intros Hf Hn. rewrite (with_instances_per_row self feats X Hf Hn).
  fold (config_width self feats).
  assert (Hrows : rows_of (shape0 X) (shape1 X) (cells X) = [] <->
                  shape0 X = 0%nat).
  { destruct (shape0 X); simpl; split; trivial; discriminate. }
  split.
  - intros [r H].
    destruct (Nat.eq_dec (rank X) 2) as [Hr | Hr];
      [ | rewrite (per_row_wrong_rank self feats X Hr) in H; discriminate].
    destruct (Z.eq_dec (Z.of_nat (shape1 X)) (config_width self feats))
      as [Hc | Hc];
      [ | rewrite (per_row_wrong_columns self feats X Hr Hc) in H;
          discriminate].
    split; [exact Hr | ]. split; [exact Hc | ].
    rewrite (per_row_valid self feats X Hr Hc) in H.
    destruct (marginalize_rows self (ncols feats)
                (rows_of (shape0 X) (shape1 X) (cells X)))
      as [mv | e] eqn:Hloop; simpl in H; [ | discriminate].
    destruct (proj1 (marginalize_rows_ok_iff self _ _)
                (ex_intro _ mv Hloop)) as [H0 | Hd].
    + left. now apply Hrows.
    + now right.
  - intros (Hr & Hc & Hrest).
    rewrite (per_row_valid self feats X Hr Hc).
    destruct (proj2 (marginalize_rows_ok_iff self (ncols feats)
                       (rows_of (shape0 X) (shape1 X) (cells X))))
      as [[mean var] Hloop].
    { destruct Hrest as [H0 | Hd]; [left; now apply Hrows | now right]. }
    rewrite Hloop. simpl. eauto.
Qed.

(** X6.  On the per-row path the means come back as the forest gave
    them, in row order, and each variance is the forest's own unless that
    is NaN or below the threshold, in which case it is the threshold; a
    variance at or above the threshold is returned unchanged.  This holds
    for any threshold the object carries. *)
Theorem marginalized_values {L : PyrfrLib} (self : model) (feats : matrix)
  (d : container) (X : ndarray float) (outs : list (float * float)) :
  instance_features self = Some feats -> nrows feats <> 0%nat ->
  data self = Some d ->
  rank X = 2%nat -> Z.of_nat (shape1 X) = config_width self feats ->
  Forall2
    (fun x o =>
       lib_predict_marginalized_over_instances (rf self)
         (x ++ repeat zero (ncols feats)) d = LibOk o)
    (rows_of (shape0 X) (shape1 X) (cells X)) outs ->
  predict_marginalized_over_instances self X =
    Ok (mk_ndarray [shape0 X; 1%nat] (map fst outs),
        mk_ndarray [shape0 X; 1%nat]
          (map (fun o =>
                  if isnan (snd o) || lt (snd o) (var_threshold self)
                  then var_threshold self else snd o) outs)) /\
  Forall
    (fun o =>
       ge (snd o) (var_threshold self) = true ->
       (if isnan (snd o) || lt (snd o) (var_threshold self)
        then var_threshold self else snd o) = snd o) outs.
Proof.
  intros Hf Hn Hd Hr Hc Houts. split.
  - rewrite (with_instances_per_row self feats X Hf Hn).
    rewrite (per_row_valid self feats X Hr Hc).
    rewrite (marginalize_rows_ok self _ d _ outs Hd Houts). simpl.
    unfold reshape_col, variance_floor, size. simpl.
    rewrite Nat.mul_1_r, !map_map. do 3 f_equal.
    apply map_ext. intros o. now rewrite floor_low_idem, floor_value.
  - apply Forall_forall. intros o _ Hge.
    now rewrite (ge_not_lt _ _ Hge), (ge_not_nan _ _ Hge).
Qed.

(** X7.  For a model whose instance table is absent or empty,
    [predict_marginalized_over_instances] is [predict] followed by the
    floor: a failure of [predict] is handed on, and a result comes back
    with the means untouched and with every variance that is NaN or below
    the threshold replaced by it, so that each is a number not below the
    threshold. *)
Theorem no_instance_branch_floor {L : PyrfrLib} (self : model)
  (X : ndarray float) :
  no_instances self = true -> isnan (var_threshold self) = false ->
  (forall e, predict self X = Raise e ->
             predict_marginalized_over_instances self X = Raise e) /\
  (forall mean var,
     predict self X = Ok (mean, var) ->
     exists var',
       predict_marginalized_over_instances self X = Ok (mean, var') /\
       shape var' = shape var /\
       cells var' =
         map (fun v =>
                if isnan v || lt v (var_threshold self)
                then var_threshold self else v) (cells var) /\
       Forall (fun v => isnan v = false /\ ge v (var_threshold self) = true)
         (cells var')).
Proof.
  intros Hg Hthr. unfold predict_marginalized_over_instances. rewrite Hg.
  unfold predict_no_instances. split.
  - intros e He. now rewrite He.
  - intros mean var Hp. rewrite Hp. simpl.
    exists (variance_floor (var_threshold self) var).
    split; [reflexivity | ]. split; [reflexivity | ]. split.
    + simpl. rewrite map_map. apply map_ext. intros v. apply floor_value.
    + simpl. rewrite map_map, Forall_map. apply Forall_forall.
      intros v _. now apply floor_cell.
Qed.

(** X8.  After a successful [train] the object has its data, so
    [predict_marginalized_over_instances] no longer fails on a missing
    attribute: whatever [X] is, a failure is either a shape error or a
    failure of the library. *)
Theorem trained_model_failures {L : PyrfrLib} (self : model)
  (configs : matrix) (f_map : ndarray nat) (y : ndarray float)
  (X : ndarray float) (e : exn) :
  fst (train self configs f_map y) = Ok RSelf ->
  predict_marginalized_over_instances
    (snd (train self configs f_map y)) X = Raise e ->
  (exists msg, e = ValueError msg) \/ (exists msg, e = LibraryError msg).
Proof.
  intros Ht.
  destruct (instance_features self) as [feats | ] eqn:Hf;
    [ | unfold train in Ht; rewrite Hf in Ht; discriminate].
  destruct (train_cases self feats configs f_map y Hf)
    as [(e' & _ & Hc) | (d & _ & [(t & _ & Hc) | (t & msg & _ & Hc)])];
    rewrite Hc in *; simpl in Ht; try discriminate.
  simpl. set (self' := set_rf (set_data self d) (set_fitted (rf self) t)).
  assert (Hf' : instance_features self' = Some feats) by exact Hf.
  assert (Hd' : data self' = Some d) by reflexivity.
  unfold predict_marginalized_over_instances.
  destruct (no_instances self') eqn:Hg.
  - unfold predict_no_instances.
    destruct (predict self' X) as [[mean var] | e'] eqn:Hp; simpl;
      [discriminate | ].
    intros H. injection H as <-.
    destruct (predict_error self' X e' Hp)
      as [[_ ->] | [(_ & _ & ->) | (_ & _ & msg & _ & ->)]]; eauto.
  - rewrite Hf'.
    destruct (Nat.eq_dec (rank X) 2) as [Hr | Hr];
      [ | rewrite (per_row_wrong_rank self' feats X Hr);
          intros H; injection H as <-; eauto].
    destruct (Z.eq_dec (Z.of_nat (shape1 X)) (config_width self' feats))
      as [Hw | Hw];
      [ | rewrite (per_row_wrong_columns self' feats X Hr Hw);
          intros H; injection H as <-; eauto].
    rewrite (per_row_valid self' feats X Hr Hw).
    destruct (marginalize_rows self' (ncols feats)
                (rows_of (shape0 X) (shape1 X) (cells X)))
      as [[mean var] | e'] eqn:Hloop; simpl; [discriminate | ].
    intros H. injection H as <-. right.
    now apply (marginalize_rows_error self' _ d _ e' Hd' Hloop).
Qed.

(** X9.  With a non-empty instance table of positive width no array is
    accepted by both [predict] and [predict_marginalized_over_instances]:
    the first wants as many columns as [types] has entries, the second
    that many less the width of the instance features, so on every [X]
    at least one of them raises the shape error. *)
Theorem prediction_inputs_disjoint {L : PyrfrLib} (self : model)
  (feats : matrix) (X : ndarray float) :
  instance_features self = Some feats -> nrows feats <> 0%nat ->
  ncols feats <> 0%nat ->
  (exists msg, predict self X = Raise (ValueError msg)) \/
  (exists msg,
     predict_marginalized_over_instances self X = Raise (ValueError msg)).
Proof.
  intros Hf Hn Hk.
  destruct (Nat.eq_dec (rank X) 2) as [Hr | Hr];
    [ | left; rewrite (predict_wrong_rank self X Hr); eauto].
  destruct (Nat.eq_dec (shape1 X) (List.length (types self))) as [Hc | Hc];
    [ | left; rewrite (predict_wrong_columns self X Hr Hc); eauto].
  right. rewrite (with_instances_per_row self feats X Hf Hn).
  rewrite (per_row_wrong_columns self feats X Hr); [eauto | ].
  unfold config_width. lia.
Qed.

(** X10.  When the instance table is wider than [types] is long, the
    expected column count is negative and
    [predict_marginalized_over_instances] rejects every array with the
    shape error; the mismatch shows at prediction, not at construction
    or training. *)
Theorem oversized_instance_table_rejects_all {L : PyrfrLib} (self : model)
  (feats : matrix) (X : ndarray float) :
  instance_features self = Some feats -> nrows feats <> 0%nat ->
  (List.length (types self) < ncols feats)%nat ->
  config_width self feats < 0 /\
  (rank X <> 2%nat ->
   predict_marginalized_over_instances self X =
     Raise (ValueError (rank_message (rank X)))) /\
  (rank X = 2%nat ->
   predict_marginalized_over_instances self X =
     Raise (ValueError
              (columns_message (config_width self feats)
                 (Z.of_nat (shape1 X))))).
Proof.
  intros Hf Hn Hlt.
  assert (Hneg : config_width self feats < 0) by (unfold config_width; lia).
  split; [exact Hneg | ].
  rewrite (with_instances_per_row self feats X Hf Hn). split.
  - apply per_row_wrong_rank.
  - intros Hr. apply per_row_wrong_columns; trivial. lia.
Qed.

(** ** Edge cases of the constructor *)

(** X11.  A [ratio_features] that is NaN makes the constructor fail:
    the comparison with 1.0 is false, the product with the number of
    types is NaN, and its conversion to an integer raises a
    [ValueError]. *)
Theorem constructor_rejects_nan_ratio {L : PyrfrLib} (a : init_args) :
  a_ratio_features a = S754_nan ->
  init a = Raise (ValueError "cannot convert float NaN to integer").
Proof.
  intros Hnan. unfold init, init_max_features. rewrite Hnan, mul_nan.
  destruct (a_instance_features a); reflexivity.
Qed.

(** X12.  On a constructed model [max_features] is never negative: it is
    0, the forest's sign for using all features, exactly when
    [ratio_features >= 1.0], and at least 1 otherwise, also when the
    ratio is zero or negative or there is no type at all. *)
Theorem max_features_zero_iff {L : PyrfrLib} (a : init_args) (self : model) :
  init a = Ok self ->
  (max_features (rf self) = 0 <-> ge (a_ratio_features a) one = true) /\
  (ge (a_ratio_features a) one = false -> 1 <= max_features (rf self)).
Proof.
  intros H. unfold init in H.
  destruct (init_max_features (a_types a) (a_ratio_features a)) as [mf | e]
    eqn:Hmf; [ | destruct (a_instance_features a); discriminate].
  assert (Hm : max_features (rf self) = mf).
  { destruct (a_instance_features a); simpl in H; injection H as <-;
      reflexivity. }
  rewrite Hm. clear H Hm. unfold init_max_features in Hmf.
  destruct (ge (a_ratio_features a) one).
  - injection Hmf as <-. repeat split; trivial. discriminate.
  - destruct (int_of_float _) as [n | e]; simpl in Hmf; [ | discriminate].
    injection Hmf as <-. split; [split | ]; try discriminate; lia.
Qed.

(** X13.  A model constructed without instance features takes arrays of
    different widths in its two predictions.  [predict] wants the dummy
    column in [X], one column more than the [types] it was constructed
    with, and rejects an [X] of that many columns; for
    [predict_marginalized_over_instances] it is the other way round. *)
Theorem dummy_model_column_counts {L : PyrfrLib} (a : init_args)
  (self : model) (X : ndarray float) :
  init a = Ok self -> a_instance_features a = None -> rank X = 2%nat ->
  (shape1 X = List.length (a_types a) ->
   predict self X =
     Raise (ValueError
              (columns_message (Z.of_nat (S (List.length (a_types a))))
                 (Z.of_nat (List.length (a_types a))))) /\
   forall msg,
     predict_marginalized_over_instances self X <> Raise (ValueError msg))
  /\
  (shape1 X = S (List.length (a_types a)) ->
   predict_marginalized_over_instances self X =
     Raise (ValueError
              (columns_message (Z.of_nat (List.length (a_types a)))
                 (Z.of_nat (S (List.length (a_types a)))))) /\
   forall msg, predict self X <> Raise (ValueError msg)).
Proof.
  intros Hinit Hnone Hr.
  assert (Hfields : types self = a_types a ++ [0%nat] /\
                    instance_features self = Some (mk_matrix 1 1 [zero])).
  { destruct (init_max_features (a_types a) (a_ratio_features a))
      as [mf | e] eqn:Hmf.
    - destruct (init_ok a mf Hmf) as (self' & Hs & _ & _ & _ & _ & Hn & _).
      assert (self' = self) by congruence. subst self'. now apply Hn.
    - unfold init in Hinit. rewrite Hmf, Hnone in Hinit. discriminate. }
  destruct Hfields as [Ht Hf].
  assert (Hlen : List.length (types self) = S (List.length (a_types a))).
  { rewrite Ht, length_app. simpl. lia. }
  assert (Hn : nrows (mk_matrix 1 1 [zero]) <> 0%nat) by discriminate.
  assert (Hw : config_width self (mk_matrix 1 1 [zero]) =
               Z.of_nat (List.length (a_types a))).
  { unfold config_width. rewrite Hlen. simpl ncols. lia. }
  split; intros Hc.
  - split.
    + rewrite predict_wrong_columns by (trivial; lia).
      now rewrite Hlen, Hc.
    + intros msg. rewrite (with_instances_per_row self _ X Hf Hn).
      rewrite per_row_valid by (trivial; rewrite Hw; lia).
      destruct (marginalize_rows self _ _) as [[mean var] | e] eqn:Hloop;
        simpl; [discriminate | ].
      intros H. injection H as ->.
      now apply marginalize_rows_no_value_error in Hloop.
  - split.
    + rewrite (with_instances_per_row self _ X Hf Hn).
      rewrite per_row_wrong_columns by (trivial; rewrite Hw; lia).
      now rewrite Hw, Hc.
    + intros msg. rewrite predict_valid by (trivial; lia).
      destruct (batch_predictions (rf self) X) as [[m v] | e]; simpl;
        discriminate.
Qed.

(** ** The further properties at sample inputs *)

Lemma train_failure_states_witness :
  fst (train Sample.stump_untrained Sample.configs Sample.f_map
         Sample.y_empty) = Raise (LibraryError "no data points") /\
  data (snd (train Sample.stump_untrained Sample.configs Sample.f_map
               Sample.y_empty)) <> None.
Proof.
  destruct (train_failure_states (L := Stump.lib) Sample.stump_untrained
              (zeros2 1 1) Sample.configs Sample.f_map Sample.y_empty
              (LibraryError "no data points") eq_refl eq_refl)
    as [_ [[Hb _] | (d & _ & _ & Hd)]].
  - discriminate Hb.
  - split; [reflexivity | ]. rewrite Hd. discriminate.
Defined.

Lemma train_replaces_data_witness :
  data (snd (train Sample.stump_untrained Sample.configs Sample.f_map
               Sample.y_same)) =
  data (snd (train Sample.stump_same Sample.configs Sample.f_map
               Sample.y_same)).
Proof.
  exact (proj1 (train_replaces_data (L := Stump.lib) Sample.stump_untrained
                  Sample.stump_same Sample.configs Sample.f_map
                  Sample.y_same eq_refl eq_refl eq_refl)).
Defined.

Lemma predict_failures_witness :
  batch_predictions (rf Sample.stump_untrained) Sample.X_padded =
    LibFail "forest is not fitted".
Proof.
  destruct (predict_failures (L := Stump.lib) Sample.stump_untrained
              Sample.X_padded (LibraryError "forest is not fitted") eq_refl)
    as [[Hr _] | [(_ & Hc & _) | (_ & _ & msg & Hb & He)]].
  - exfalso. apply Hr. reflexivity.
  - exfalso. apply Hc. reflexivity.
  - injection He as <-. exact Hb.
Defined.

Lemma marginalized_returns_iff_witness :
  exists r,
    predict_marginalized_over_instances Sample.stump_instances
      Sample.X_config = Ok r.
Proof.
  apply (marginalized_returns_iff (L := Stump.lib) Sample.stump_instances
           Sample.two_instances Sample.X_config eq_refl
           ltac:(discriminate)).
  split; [reflexivity | ]. split; [reflexivity | ]. right.
  eexists. split; [reflexivity | ].
  repeat constructor. eexists. reflexivity.
Defined.

Lemma marginalized_values_witness :
  predict_marginalized_over_instances Sample.stump_instances Sample.X_config
    = Ok (mk_ndarray [1%nat; 1%nat] [of_int 2],
          mk_ndarray [1%nat; 1%nat] [var_threshold_value]).
Proof.
  exact (proj1 (marginalized_values (L := Stump.lib) Sample.stump_instances
                  Sample.two_instances
                  (Stump.mk_store 2 1 (Some Sample.configs)
                     (Some Sample.two_instances)
                     (Some (Sample.f_map, flatten Sample.y_same)))
                  Sample.X_config [(of_int 2, zero)]
                  eq_refl ltac:(discriminate) eq_refl eq_refl eq_refl
                  ltac:(repeat constructor))).
Defined.

Lemma no_instance_branch_floor_witness :
  exists var,
    predict_marginalized_over_instances Sample.stump_empty_trained
      Sample.X_config = Ok (mk_ndarray [1%nat; 1%nat] [of_int 2], var) /\
    cells var = [var_threshold_value].
Proof.
  destruct (proj2 (no_instance_branch_floor (L := Stump.lib)
                     Sample.stump_empty_trained Sample.X_config
                     eq_refl eq_refl)
              (mk_ndarray [1%nat; 1%nat] [of_int 2])
              (mk_ndarray [1%nat; 1%nat] [zero]) eq_refl)
    as (var & Hp & _ & Hc & _).
  exists var. split; [exact Hp | exact Hc].
Defined.

Lemma trained_model_failures_witness :
  (exists msg,
     ValueError "Rows in X should have 2 entries but have 3!"
       = ValueError msg) \/
  (exists msg,
     ValueError "Rows in X should have 2 entries but have 3!"
       = LibraryError msg).
Proof.
  exact (trained_model_failures (L := Stump.lib) Sample.stump_untrained
           Sample.configs Sample.f_map Sample.y_same Sample.X_padded
           (ValueError "Rows in X should have 2 entries but have 3!")
           eq_refl eq_refl).
Defined.

Lemma prediction_inputs_disjoint_witness :
  (exists msg,
     predict Sample.stump_instances Sample.X_config
       = Raise (ValueError msg)) \/
  (exists msg,
     predict_marginalized_over_instances Sample.stump_instances
       Sample.X_config = Raise (ValueError msg)).
Proof.
  exact (prediction_inputs_disjoint (L := Stump.lib) Sample.stump_instances
           Sample.two_instances Sample.X_config eq_refl
           ltac:(discriminate) ltac:(discriminate)).
Defined.

Lemma oversized_instance_table_rejects_all_witness :
  predict_marginalized_over_instances Sample.stump_wide Sample.X_config =
    Raise (ValueError "Rows in X should have -1 entries but have 2!").
Proof.
  exact (proj2 (proj2 (oversized_instance_table_rejects_all
                         (L := Stump.lib) Sample.stump_wide
                         Sample.wide_table Sample.X_config eq_refl
                         ltac:(discriminate) ltac:(simpl; lia)))
           eq_refl).
Defined.

Lemma constructor_rejects_nan_ratio_witness :
  init (L := Stump.lib) Sample.with_nan_ratio =
    Raise (ValueError "cannot convert float NaN to integer").
Proof.
  exact (constructor_rejects_nan_ratio (L := Stump.lib)
           Sample.with_nan_ratio eq_refl).
Defined.

Lemma max_features_zero_iff_witness :
  1 <= max_features (rf Sample.stump_untrained).
Proof.
  exact (proj2 (max_features_zero_iff (L := Stump.lib) Sample.two_dims
                  Sample.stump_untrained eq_refl) eq_refl).
Defined.

Lemma dummy_model_column_counts_witness :
  predict Sample.stump_untrained Sample.X_config =
    Raise (ValueError "Rows in X should have 3 entries but have 2!").
Proof.
  exact (proj1 (proj1 (dummy_model_column_counts (L := Stump.lib)
                         Sample.two_dims Sample.stump_untrained
                         Sample.X_config eq_refl eq_refl eq_refl)
                  eq_refl)).
Defined.
